(** * A shallow embedding of [ind1.py] (the train ledger command-line tool)

    The program is a thin layer over Python's [sqlite3] and [argparse]
    modules.  We embed

    - the part of the SQL engine the program exercises: tables with named
      columns, [CREATE TABLE IF NOT EXISTS], [INSERT ... VALUES (?, ...)],
      [SELECT ... FROM ... INNER JOIN ... ON ... WHERE ... = ?], with the
      name resolution that makes SQLite raise [OperationalError];
    - the Python connection object: an implicit transaction opened by an
      [INSERT], [commit], and [close], which drops what was not committed;
    - the functions of [ind1.py], written in a state-and-exception monad
      over the connection;
    - the [argparse] command line of [main] and its dispatch.

    Python [str] values are Rocq [string]s holding their UTF-8 encoding;
    the width used by [str.format] padding counts code points, i.e. the
    bytes that are not UTF-8 continuation bytes. *)

From Stdlib Require Import String Ascii List ZArith Lia Bool.
Import ListNotations.

Open Scope string_scope.

(** ** Python exceptions raised along the program's paths *)

Inductive exn :=
| OperationalError (msg : string)   (** [sqlite3.OperationalError] *)
| IntegrityError (msg : string)     (** [sqlite3.IntegrityError] *)
| AttributeError (name : string)    (** missing attribute of the [Namespace] *)
| TypeError (msg : string)          (** [format] of [None] with a spec *)
| ProgrammingError (msg : string).  (** wrong number of bindings *)

Inductive result (A : Type) :=
| Ok (a : A)
| Exc (e : exn).
Arguments Ok {A} a.
Arguments Exc {A} e.

(** ** The SQL store *)

Module Sql.

Inductive value :=
| VNull
| VInt (z : Z)
| VText (s : string).

(** A declared column: its name, whether it is the
    [INTEGER PRIMARY KEY AUTOINCREMENT] (rowid alias) column and whether it
    is [NOT NULL].  The declared type ([TEXT], [INTEGER], [LIST]) has no
    effect on what SQLite stores in the paths modelled here; the
    [FOREIGN KEY] clause is not enforced, since the program never enables
    [PRAGMA foreign_keys]. *)
Record column := mkcol { c_name : string; c_pk : bool; c_notnull : bool }.

Definition row := list (string * value).

Record table := mktable {
  t_cols : list column;
  t_rows : list row;   (** in storage (insertion) order *)
  t_seq : Z            (** the [sqlite_sequence] counter of the table *)
}.

(** A database file: its tables by name, in creation order. *)
Definition db := list (string * table).

Definition empty_db : db := [].

Fixpoint lookup {A} (k : string) (l : list (string * A)) : option A :=
  match l with
  | [] => None
  | (k', a) :: l' => if String.eqb k k' then Some a else lookup k l'
  end.

Fixpoint update {A} (k : string) (a : A) (l : list (string * A))
  : list (string * A) :=
  match l with
  | [] => [(k, a)]
  | (k', a') :: l' =>
      if String.eqb k k' then (k, a) :: l' else (k', a') :: update k a l'
  end.

Definition has_col (tb : table) (c : string) : bool :=
  existsb (fun col => String.eqb (c_name col) c) (t_cols tb).

(** A column reference, [qual.col] or a bare [col]. *)
Record colref := cref { qual : option string; col : string }.

Definition colref_text (c : colref) : string :=
  match qual c with
  | Some t => t ++ "." ++ col c
  | None => col c
  end.

(** The statements the program executes; every [?] is a parameter, in
    order. *)
Inductive stmt :=
| CreateTable (if_not_exists : bool) (name : string) (cols : list column)
| InsertInto (name : string) (cols : list string)
    (** [INSERT INTO name (cols) VALUES (?, ..., ?)] *)
| SelectFrom (proj : list colref) (from : string)
    (join : option (string * colref * colref))
    (** [INNER JOIN t ON a = b] *)
    (where_eq : option colref).
    (** [WHERE c = ?] *)

(** ** Name resolution (statement preparation) *)

Definition no_such_column (c : colref) : exn :=
  OperationalError ("no such column: " ++ colref_text c).

(** Resolve a column against the tables of the [FROM] clause. *)
Definition resolve (srcs : list (string * table)) (c : colref) : option exn :=
  match qual c with
  | Some t =>
      match lookup t srcs with
      | Some tb => if has_col tb (col c) then None else Some (no_such_column c)
      | None => Some (no_such_column c)
      end
  | None =>
      match List.length (filter (fun p => has_col (snd p) (col c)) srcs) with
      | 0 => Some (no_such_column c)
      | 1 => None
      | _ => Some (OperationalError ("ambiguous column name: " ++ col c))
      end
  end.

Fixpoint first_error (l : list (option exn)) : option exn :=
  match l with
  | [] => None
  | Some e :: _ => Some e
  | None :: l' => first_error l'
  end.

(** ** Evaluation *)

(** A row of a join: each [FROM] table name with its current row. *)
Definition jrow := list (string * row).

Definition eval_col (r : jrow) (c : colref) : value :=
  let pick rw := match lookup (col c) rw with Some v => v | None => VNull end in
  match qual c with
  | Some t => match lookup t r with Some rw => pick rw | None => VNull end
  | None =>
      match find (fun p => match lookup (col c) (snd p) with
                           | Some _ => true | None => false end) r with
      | Some (_, rw) => pick rw
      | None => VNull
      end
  end.

(** SQL [=] as a filter: [NULL] never matches.  Affinity conversions
    between text and integers are not modelled. *)
Definition sql_eq (a b : value) : bool :=
  match a, b with
  | VInt x, VInt y => Z.eqb x y
  | VText x, VText y => String.eqb x y
  | _, _ => false
  end.

(** The rows of a [FROM t1 [INNER JOIN t2 ON a = b]] clause, as
    nested loops over the tables in storage order. *)
Definition join_rows (from : string) (tb : table)
    (join : option (string * table * colref * colref)) : list jrow :=
  match join with
  | None => map (fun r1 => [(from, r1)]) (t_rows tb)
  | Some (jt, tj, a, b) =>
      flat_map (fun r1 =>
        flat_map (fun r2 =>
          let ctx := [(from, r1); (jt, r2)] in
          if sql_eq (eval_col ctx a) (eval_col ctx b) then [ctx] else [])
        (t_rows tj))
      (t_rows tb)
  end.

Definition no_such_table (t : string) : exn :=
  OperationalError ("no such table: " ++ t).

(** Build the stored row of an [INSERT]: supplied columns take their
    value, the rowid column an [AUTOINCREMENT] value when not supplied (or
    supplied [NULL]), any other missing column [NULL], subject to
    [NOT NULL]. *)
Fixpoint build_row (name : string) (cols : list column)
    (given : list (string * value)) (id : Z) : result row :=
  match cols with
  | [] => Ok []
  | c :: cs =>
      let v :=
        match lookup (c_name c) given with
        | Some VNull | None => if c_pk c then VInt id else VNull
        | Some v => v
        end in
      if c_notnull c && match v with VNull => true | _ => false end
      then Exc (IntegrityError
                  ("NOT NULL constraint failed: " ++ name ++ "." ++ c_name c))
      else match build_row name cs given id with
           | Ok r => Ok ((c_name c, v) :: r)
           | Exc e => Exc e
           end
  end.

Definition placeholders (s : stmt) : nat :=
  match s with
  | CreateTable _ _ _ => 0
  | InsertInto _ cs => List.length cs
  | SelectFrom _ _ _ w => match w with Some _ => 1 | None => 0 end
  end.

(** Executing one statement on a database: the new database, the result
    rows and the rowid of an inserted row. *)
Definition exec_stmt (s : stmt) (params : list value) (d : db)
  : result (db * list (list value) * option Z) :=
  if negb (Nat.eqb (List.length params) (placeholders s)) then
    Exc (ProgrammingError "Incorrect number of bindings supplied.")
  else
  match s with
  | CreateTable ine name cols =>
      match lookup name d with
      | Some _ =>
          if ine then Ok (d, [], None)
          else Exc (OperationalError ("table " ++ name ++ " already exists"))
      | None => Ok (update name (mktable cols [] 0) d, [], None)
      end
  | InsertInto name cs =>
      match lookup name d with
      | None => Exc (no_such_table name)
      | Some tb =>
          match find (fun c => negb (has_col tb c)) cs with
          | Some c =>
              Exc (OperationalError
                     ("table " ++ name ++ " has no column named " ++ c))
          | None =>
              let id := (t_seq tb + 1)%Z in
              match build_row name (t_cols tb) (combine cs params) id with
              | Exc e => Exc e
              | Ok r =>
                  Ok (update name (mktable (t_cols tb) (t_rows tb ++ [r])%list id) d,
                      [], Some id)
              end
          end
      end
  | SelectFrom proj from join w =>
      match lookup from d with
      | None => Exc (no_such_table from)
      | Some tb =>
          let src :=
            match join with
            | None => Ok ([(from, tb)], None)
            | Some (jt, a, b) =>
                match lookup jt d with
                | None => Exc (no_such_table jt)
                | Some tj => Ok ([(from, tb); (jt, tj)], Some (jt, tj, a, b))
                end
            end in
          match src with
          | Exc e => Exc e
          | Ok (srcs, j) =>
              let refs := (proj
                ++ match join with Some (_, a, b) => [a; b] | None => [] end
                ++ match w with Some c => [c] | None => [] end)%list in
              match first_error (map (resolve srcs) refs) with
              | Some e => Exc e
              | None =>
                  let rs := join_rows from tb j in
                  let rs := match w with
                            | Some c =>
                                filter (fun r => sql_eq (eval_col r c)
                                                   (nth 0 params VNull)) rs
                            | None => rs
                            end in
                  Ok (d, map (fun r => map (eval_col r) proj) rs, None)
              end
          end
      end
  end.

End Sql.

(** ** The [sqlite3] connection object *)

Module Conn.
Import Sql.

(** The committed file contents, the open implicit transaction (if any),
    and the state of the program's single cursor. *)
Record conn := mkconn {
  c_disk : db;
  c_tx : option db;
  c_pending : list (list value);   (** rows not yet fetched *)
  c_lastrowid : option Z
}.

Definition connect (d : db) : conn := mkconn d None [] None.

Definition current (c : conn) : db :=
  match c_tx c with Some d => d | None => c_disk c end.

Definition set_current (d : db) (c : conn) : conn :=
  match c_tx c with
  | Some _ => mkconn (c_disk c) (Some d) (c_pending c) (c_lastrowid c)
  | None => mkconn d None (c_pending c) (c_lastrowid c)
  end.

(** The state-and-exception monad of a function holding a connection. *)
Definition M (A : Type) := conn -> result A * conn.

Definition ret {A} (a : A) : M A := fun c => (Ok a, c).
Definition raise {A} (e : exn) : M A := fun c => (Exc e, c).
Definition bind {A B} (m : M A) (k : A -> M B) : M B :=
  fun c => match m c with
           | (Ok a, c') => k a c'
           | (Exc e, c') => (Exc e, c')
           end.

Notation "x <- m ;; k" := (bind m (fun x => k))
  (at level 61, m at next level, right associativity).
Notation "m ;;; k" := (bind m (fun _ => k))
  (at level 61, right associativity).

(** [cursor.execute(sql, params)]: an [INSERT] first opens an implicit
    transaction (Python's legacy transaction control); other statements
    run in the open transaction if there is one and are autocommitted
    otherwise. *)
Definition execute (s : stmt) (params : list value) : M unit :=
  fun c =>
    let c1 := match s, c_tx c with
              | InsertInto _ _, None =>
                  mkconn (c_disk c) (Some (c_disk c)) (c_pending c)
                         (c_lastrowid c)
              | _, _ => c
              end in
    match exec_stmt s params (current c1) with
    | Exc e => (Exc e, c1)
    | Ok (d', rows, lid) =>
        let c2 := set_current d' c1 in
        (Ok tt, mkconn (c_disk c2) (c_tx c2) rows
                  (match lid with Some i => Some i | None => c_lastrowid c2 end))
    end.

Definition fetchone : M (option (list value)) :=
  fun c => match c_pending c with
           | [] => (Ok None, c)
           | r :: rs => (Ok (Some r), mkconn (c_disk c) (c_tx c) rs (c_lastrowid c))
           end.

Definition fetchall : M (list (list value)) :=
  fun c => (Ok (c_pending c), mkconn (c_disk c) (c_tx c) [] (c_lastrowid c)).

Definition lastrowid : M (option Z) := fun c => (Ok (c_lastrowid c), c).

Definition commit : M unit :=
  fun c => (Ok tt, mkconn (current c) None (c_pending c) (c_lastrowid c)).

(** [conn.close()] discards an uncommitted transaction. *)
Definition close : M unit :=
  fun c => (Ok tt, mkconn (c_disk c) None [] (c_lastrowid c)).

(** Running a function that opens a connection on a file: its result and
    the file contents afterwards.  When an exception escapes, the
    connection is dropped and its uncommitted transaction is lost, as
    with [close]. *)
Definition run {A} (m : M A) (d : db) : result A * db :=
  let '(r, c) := m (connect d) in (r, c_disk c).

End Conn.

(** ** Python values, dictionaries and [str.format] *)

Module Py.

Inductive pyval :=
| PNone
| PInt (z : Z)
| PStr (s : string).

(** Parameter binding and row conversion of [sqlite3]. *)
Definition to_sql (v : pyval) : Sql.value :=
  match v with
  | PNone => Sql.VNull
  | PInt z => Sql.VInt z
  | PStr s => Sql.VText s
  end.

Definition from_sql (v : Sql.value) : pyval :=
  match v with
  | Sql.VNull => PNone
  | Sql.VInt z => PInt z
  | Sql.VText s => PStr s
  end.

(** A [dict] with string keys, as an association list. *)
Definition dict := list (string * pyval).

(** [d.get(k, default)] *)
Definition get (d : dict) (k : string) (default : pyval) : pyval :=
  match Sql.lookup k d with Some v => v | None => default end.

(** The number of code points of a UTF-8 encoded string. *)
Fixpoint cp_len (s : string) : nat :=
  match s with
  | EmptyString => 0
  | String c s' =>
      if N.eqb (N.land (N_of_ascii c) 192) 128 then cp_len s' else S (cp_len s')
  end.

Fixpoint repeat_char (c : ascii) (n : nat) : string :=
  match n with
  | O => EmptyString
  | S n' => String c (repeat_char c n')
  end.

Definition spaces (n : nat) : string := repeat_char " "%char n.

(** ["-" * n] *)
Definition dashes (n : nat) : string := repeat_char "-"%char n.

Fixpoint n_digits (fuel : nat) (n : N) (acc : string) : string :=
  match fuel with
  | O => acc
  | S f =>
      let acc' := String (ascii_of_N (48 + N.modulo n 10)) acc in
      if N.ltb n 10 then acc' else n_digits f (N.div n 10) acc'
  end.

(** [str(z)] for an integer. *)
Definition z_str (z : Z) : string :=
  let digits := n_digits (S (N.size_nat (Z.abs_N z))) (Z.abs_N z) EmptyString in
  if Z.ltb z 0 then "-" ++ digits else digits.

Inductive align := ALeft | ARight | ACenter.

(** Padding of a format spec [{:<w}], [{:>w}] or [{:^w}]: the fill is
    split with the smaller half on the left for [^]; a wider value is
    kept whole. *)
Definition pad (a : align) (w : nat) (s : string) : string :=
  let n := w - cp_len s in
  match a with
  | ALeft => s ++ spaces n
  | ARight => spaces n ++ s
  | ACenter => spaces (Nat.div n 2) ++ s ++ spaces (n - Nat.div n 2)
  end.

(** [format(v, spec)] for the values that reach the table renderer. *)
Definition format (a : align) (w : nat) (v : pyval) : result string :=
  match v with
  | PStr s => Ok (pad a w s)
  | PInt z => Ok (pad a w (z_str z))
  | PNone =>
      Exc (TypeError "unsupported format string passed to NoneType.__format__")
  end.

End Py.

(** ** The functions of [ind1.py] *)

Module Ind1.
Import Sql Conn Py.

Definition groups_columns : list column :=
  [ mkcol "train_id" true false;
    mkcol "train_title" false true ].

Definition students_columns : list column :=
  [ mkcol "train_id" true false;
    mkcol "train_punkt" false true;
    mkcol "train_nomer" false true;
    mkcol "train_time" false true ].

(** [create_db] *)
Definition create_db : M unit :=
  execute (CreateTable true "groups" groups_columns) [] ;;;
  execute (CreateTable true "students" students_columns) [] ;;;
  close.

(** [add_train] *)
Definition add_train (punkt_nazn nomer time : pyval) : M unit :=
  execute (SelectFrom [cref None "train_nomer"] "trains" None
             (Some (cref None "group_title"))) [to_sql nomer] ;;;
  row <- fetchone ;;
  group_id <- match row with
              | None =>
                  execute (InsertInto "groups" ["group_title"]) [to_sql nomer] ;;;
                  lastrowid
              | Some r =>
                  ret (match nth_error r 0 with
                       | Some (VInt i) => Some i
                       | _ => None
                       end)
              end ;;
  execute (InsertInto "trains" ["train_punkt"; "train_nomer"; "train_time"])
    [to_sql punkt_nazn; to_sql nomer; to_sql time] ;;;
  commit ;;;
  close.

(** The dictionaries built from the fetched tuples. *)
Definition to_record (r : list value) : dict :=
  [ ("punkt_nazn", from_sql (nth 0 r VNull));
    ("nomer", from_sql (nth 1 r VNull));
    ("time", from_sql (nth 2 r VNull)) ].

Definition select_all_query : stmt :=
  SelectFrom
    [ cref (Some "trains") "trains_punkt";
      cref (Some "groups") "group_title";
      cref (Some "trains") "train_nomer" ]
    "trains"
    (Some ("groups", cref (Some "groups") "trains_nomer",
                     cref (Some "trains") "trains_nomer"))
    None.

(** [select_all] *)
Definition select_all : M (list dict) :=
  execute select_all_query [] ;;;
  rows <- fetchall ;;
  close ;;;
  ret (map to_record rows).

Definition select_by_num_query : stmt :=
  SelectFrom
    [ cref (Some "trains") "train_punkt";
      cref (Some "groups") "group_title";
      cref (Some "trains") "train_nomer" ]
    "trains"
    (Some ("groups", cref (Some "groups") "train_nomer",
                     cref (Some "students") "train_nomer"))
    (Some (cref (Some "groups") "group_title")).

(** [select_by_num] *)
Definition select_by_num (nomer : pyval) : M (list dict) :=
  execute select_by_num_query [to_sql nomer] ;;;
  rows <- fetchall ;;
  close ;;;
  ret (map to_record rows).

(** *** [display_trains]: the printed lines, and the exception that
    interrupted the printing, if any. *)

Definition line : string :=
  "+-" ++ dashes 4 ++ "-+-" ++ dashes 30 ++ "-+-" ++ dashes 20 ++ "-+-"
       ++ dashes 20 ++ "-+".

Definition header : string :=
  "| " ++ pad ACenter 4 "№" ++ " | " ++ pad ACenter 30 "Пункт назначиния"
       ++ " | " ++ pad ACenter 20 "Номер поезда" ++ " | "
       ++ pad ACenter 20 "время отправления" ++ " |".

(** ['| {:>4} | {:<30} | {:<20} |  {:<20} |'.format(...)] *)
Definition format_row (idx : Z) (train : dict) : result string :=
  match format ARight 4 (PInt idx),
        format ALeft 30 (get train "punkt_nazn" (PStr "")),
        format ALeft 20 (get train "nomer" (PStr "")),
        format ALeft 20 (get train "time" (PStr "")) with
  | Ok a, Ok b, Ok c, Ok d =>
      Ok ("| " ++ a ++ " | " ++ b ++ " | " ++ c ++ " |  " ++ d ++ " |")
  | Exc e, _, _, _ | _, Exc e, _, _ | _, _, Exc e, _ | _, _, _, Exc e => Exc e
  end.

(** The loop [for idx, train in enumerate(trains, 1)]. *)
Fixpoint print_rows (idx : Z) (trains : list dict) : list string * option exn :=
  match trains with
  | [] => ([], None)
  | t :: ts =>
      match format_row idx t with
      | Exc e => ([], Some e)
      | Ok s => let '(out, e) := print_rows (idx + 1)%Z ts in (s :: out, e)
      end
  end.

Definition display_trains (trains : list dict) : list string * option exn :=
  match trains with
  | [] => ([], None)
  | _ :: _ =>
      let '(out, e) := print_rows 1 trains in
      match e with
      | None => (([line; header; line] ++ out ++ [line])%list, None)
      | Some e => (([line; header; line] ++ out)%list, Some e)
      end
  end.

End Ind1.

(** ** The command line of [main] ([argparse]) and its dispatch *)

Module Cli.
Import Sql Conn Py Ind1.

(** The [argparse.Namespace] of the parsed arguments. *)
Definition namespace := list (string * pyval).

(** [getattr(args, k)] *)
Definition getattr (ns : namespace) (k : string) : result pyval :=
  match lookup k ns with Some v => Ok v | None => Exc (AttributeError k) end.

(** [int(s)] on a decimal literal: surrounding white space, a sign, and
    single underscores between digits are accepted (non-ASCII digits are
    not modelled). *)
Definition is_digit (c : ascii) : bool :=
  let n := nat_of_ascii c in Nat.leb 48 n && Nat.leb n 57.

Definition is_ws (c : ascii) : bool :=
  existsb (fun n => Nat.eqb (nat_of_ascii c) n) [32; 9; 10; 11; 12; 13].

Fixpoint drop_ws (l : list ascii) : list ascii :=
  match l with
  | c :: l' => if is_ws c then drop_ws l' else l
  | [] => []
  end.

Fixpoint digits_value (l : list ascii) (acc : Z) (after_digit : bool)
  : option Z :=
  match l with
  | [] => if after_digit then Some acc else None
  | c :: l' =>
      if is_digit c then
        digits_value l' (acc * 10 + Z.of_nat (nat_of_ascii c - 48))%Z true
      else if Ascii.eqb c "_"%char && after_digit then
        digits_value l' acc false
      else None
  end.

Definition py_int (s : string) : option Z :=
  let l := rev (drop_ws (rev (drop_ws (list_ascii_of_string s)))) in
  match l with
  | c :: l' =>
      if Ascii.eqb c "-"%char then option_map Z.opp (digits_value l' 0 false)
      else if Ascii.eqb c "+"%char then digits_value l' 0 false
      else digits_value l 0 false
  | [] => None
  end.

(** The actions of a parser. *)
Inductive action :=
| AHelp
| AVersion
| AStore (dest : string) (is_int : bool) (required : bool).

Record opt := mkopt { o_strings : list string; o_action : action }.

Definition help_opt : opt := mkopt ["-h"; "--help"] AHelp.

(** [file_parser]'s [--db] (the parent of every subparser). *)
Definition db_opt : opt := mkopt ["--db"] (AStore "db" false false).

Definition add_opts : list opt :=
  [ help_opt; db_opt;
    mkopt ["-p"; "--punkt"] (AStore "punkt" false true);
    mkopt ["-n"; "--nomer"] (AStore "nomer" true false);
    mkopt ["-t"; "--time"] (AStore "time" true true) ].

Definition display_opts : list opt := [ help_opt; db_opt ].

Definition select_opts : list opt :=
  [ help_opt; db_opt; mkopt ["-s"; "--select"] (AStore "select" false true) ].

Definition top_opts : list opt :=
  [ help_opt; mkopt ["--version"] AVersion ].

Definition subcommand_opts (cmd : string) : option (list opt) :=
  if String.eqb cmd "add" then Some add_opts
  else if String.eqb cmd "display" then Some display_opts
  else if String.eqb cmd "select" then Some select_opts
  else None.

Definition starts_with (p s : string) : bool := String.prefix p s.

Definition has_opt_string (s : string) (o : opt) : bool :=
  existsb (String.eqb s) (o_strings o).

(** A token that argparse reads as a negative number, not an option. *)
Definition neg_number (s : string) : bool :=
  match list_ascii_of_string s with
  | c :: (_ :: _) as l => Ascii.eqb c "-"%char && forallb is_digit l
  | _ => false
  end.

Definition has_space (s : string) : bool :=
  existsb (fun c => Ascii.eqb c " "%char) (list_ascii_of_string s).

(** Split at the first [=]. *)
Definition split_eq (s : string) : option (string * string) :=
  match String.index 0 "=" s with
  | Some i => Some (substring 0 i s, substring (S i) (String.length s) s)
  | None => None
  end.

Inductive classified :=
| Positional
| Known (o : opt) (explicit : option string)
| Ambiguous
| Unknown.

(** [ArgumentParser._parse_optional]: exact option strings, [--opt=v],
    unique prefixes of long options, and [-xV] for short options. *)
Definition classify (opts : list opt) (tok : string) : classified :=
  if negb (starts_with "-" tok) || String.eqb tok "-" then Positional
  else
  match find (has_opt_string tok) opts with
  | Some o => Known o None
  | None =>
  match split_eq tok with
  | Some (name, v) =>
      match find (has_opt_string name) opts with
      | Some o => Known o (Some v)
      | None => Unknown
      end
  | None =>
  if starts_with "--" tok then
    match filter (fun o => existsb (fun s => starts_with "--" s && starts_with tok s)
                                   (o_strings o)) opts with
    | [o] => Known o None
    | _ :: _ :: _ => Ambiguous
    | [] => if has_space tok then Positional else Unknown
    end
  else if Nat.ltb 2 (String.length tok) then
    match find (has_opt_string (substring 0 2 tok)) opts with
    | Some o => Known o (Some (substring 2 (String.length tok) tok))
    | None =>
        if neg_number tok || has_space tok then Positional else Unknown
    end
  else if neg_number tok then Positional else Unknown
  end
  end.

Inductive parsed :=
| Parsed (ns : namespace)
| ParseExit (code : Z) (out : list string).   (** [SystemExit] from argparse *)

(** [--help] prints the usage and the option descriptions; only the usage
    line is kept here. *)
Definition help_text (prog : string) : list string := ["usage: " ++ prog].

Definition usage_error : parsed := ParseExit 2 [].   (* message on stderr *)

Definition store_value (is_int : bool) (v : string) : option pyval :=
  if is_int then option_map PInt (py_int v) else Some (PStr v).

(** The loop of [parse_known_args] for a subparser: the namespace, the
    destinations seen, and the unrecognized tokens. *)
Fixpoint parse_sub (fuel : nat) (prog : string) (opts : list opt)
    (toks : list string) (ns : namespace) (seen : list string)
    (extras : list string) : parsed + (namespace * list string * list string) :=
  match fuel with
  | O => inl usage_error
  | S fuel' =>
  match toks with
  | [] => inr (ns, seen, extras)
  | tok :: rest =>
      match classify opts tok with
      | Positional | Unknown =>
          parse_sub fuel' prog opts rest ns seen (extras ++ [tok])%list
      | Ambiguous => inl usage_error
      | Known o explicit =>
          match o_action o with
          | AHelp | AVersion =>
              match explicit with
              | None => inl (ParseExit 0 (help_text prog))
              | Some _ => inl usage_error
              end
          | AStore dest is_int _ =>
              let arg :=
                match explicit with
                | Some v => Some (v, rest)
                | None =>
                    match rest with
                    | v :: rest' =>
                        match classify opts v with
                        | Positional => Some (v, rest')
                        | _ => None
                        end
                    | [] => None
                    end
                end in
              match arg with
              | None => inl usage_error       (** expected one argument *)
              | Some (v, rest') =>
                  match store_value is_int v with
                  | None => inl usage_error   (** invalid int value *)
                  | Some pv =>
                      parse_sub fuel' prog opts rest' (update dest pv ns)
                        (dest :: seen) extras
                  end
              end
          end
      end
  end
  end.

Definition required_dests (opts : list opt) : list string :=
  flat_map (fun o => match o_action o with
                     | AStore d _ true => [d]
                     | _ => []
                     end) opts.

(** [str(Path.cwd() / "trains.db")] *)
Definition default_db (cwd : string) : string :=
  if String.eqb cwd "/" then "/trains.db" else cwd ++ "/trains.db".

Definition defaults (cwd : string) (opts : list opt) : namespace :=
  flat_map (fun o => match o_action o with
                     | AStore d _ _ =>
                         if String.eqb d "db" then [(d, PStr (default_db cwd))]
                         else [(d, PNone)]
                     | _ => []
                     end) opts.

(** [parser.parse_args(command_line)]: options of the main parser up to
    the subcommand, then the subparser on all the remaining tokens. *)
Fixpoint parse_top (cwd : string) (toks : list string) (extras : list string)
  : parsed :=
  match toks with
  | [] =>
      if (0 <? List.length extras)%nat then usage_error
      else Parsed [("command", PNone)]
  | tok :: rest =>
      match classify top_opts tok with
      | Known o None =>
          match o_action o with
          | AVersion => ParseExit 0 ["trains 0.1.0"]
          | _ => ParseExit 0 (help_text "trains")
          end
      | Known _ (Some _) | Ambiguous => usage_error
      | Unknown => parse_top cwd rest (extras ++ [tok])%list
      | Positional =>
          match subcommand_opts tok with
          | None => usage_error                    (** invalid choice *)
          | Some opts =>
              match parse_sub (S (List.length rest)) ("trains " ++ tok) opts rest
                      (defaults cwd opts) [] extras with
              | inl p => p
              | inr (ns, seen, extras') =>
                  if existsb (fun d => negb (existsb (String.eqb d) seen))
                             (required_dests opts)
                  then usage_error      (** required arguments missing *)
                  else if (0 <? List.length extras')%nat then usage_error
                  else Parsed (("command", PStr tok) :: ns)
              end
          end
      end
  end.

Definition parse_args (cwd : string) (command_line : list string) : parsed :=
  parse_top cwd command_line [].

End Cli.

(** ** [main] *)

Module Main.
Import Sql Conn Py Ind1 Cli.

(** The database files by path; a path not yet listed holds no tables
    ([sqlite3.connect] creates the file). *)
Definition fs := list (string * db).

Definition fs_get (p : string) (f : fs) : db :=
  match lookup p f with Some d => d | None => empty_db end.

Definition fs_set (p : string) (d : db) (f : fs) : fs := update p d f.

(** The end of a run: the exit status, the lines written to standard
    output and the database files.  An uncaught exception ends the
    process with status 1 and a traceback on standard error. *)
Record outcome := mkoutcome { exit_code : Z; stdout : list string; files : fs }.

Definition uncaught (out : list string) (f : fs) : outcome := mkoutcome 1 out f.

(** [Path(s)] *)
Definition path (v : pyval) : result string :=
  match v with
  | PStr s => Ok s
  | _ => Exc (TypeError "expected str, bytes or os.PathLike object")
  end.

Definition py_eq (a b : pyval) : bool :=
  match a, b with
  | PNone, PNone => true
  | PInt x, PInt y => Z.eqb x y
  | PStr x, PStr y => String.eqb x y
  | _, _ => false
  end.

(** A function of [ind1.py] opening a connection on the file at [p]. *)
Definition call {A} (m : M A) (p : string) (f : fs) : result A * fs :=
  let '(r, d) := run m (fs_get p f) in (r, fs_set p d f).

Definition or_raise {A} (r : result A) (out : list string) (f : fs)
    (k : A -> outcome) : outcome :=
  match r with
  | Ok a => k a
  | Exc _ => uncaught out f
  end.

(** [display_trains(...)] at the end of [main]. *)
Definition print_table (trains : list dict) (f : fs) : outcome :=
  let '(out, e) := display_trains trains in
  match e with
  | None => mkoutcome 0 out f
  | Some _ => uncaught out f
  end.

(** The body of [main] after [parser.parse_args]. *)
Definition dispatch (args : namespace) (f : fs) : outcome :=
  or_raise (getattr args "db") [] f (fun dbv =>
  or_raise (path dbv) [] f (fun db_path =>
  let '(r, f) := call create_db db_path f in
  or_raise r [] f (fun _ =>
  or_raise (getattr args "command") [] f (fun command =>
  if py_eq command (PStr "add") then
    or_raise (getattr args "punkt_nazn") [] f (fun punkt_nazn =>
    or_raise (getattr args "nomer") [] f (fun nomer =>
    or_raise (getattr args "time") [] f (fun time =>
    let '(r, f) := call (add_train punkt_nazn nomer time) db_path f in
    or_raise r [] f (fun _ => mkoutcome 0 [] f))))
  else if py_eq command (PStr "display") then
    let '(r, f) := call select_all db_path f in
    or_raise r [] f (fun trains => print_table trains f)
  else if py_eq command (PStr "select") then
    or_raise (getattr args "select") [] f (fun sel =>
    let '(r, f) := call (select_by_num sel) db_path f in
    or_raise r [] f (fun trains => print_table trains f))
  else mkoutcome 0 [] f)))).

(** [main(command_line)] run in the working directory [cwd]. *)
Definition main (cwd : string) (command_line : list string) (f : fs) : outcome :=
  match parse_args cwd command_line with
  | ParseExit code out => mkoutcome code out f
  | Parsed args => dispatch args f
  end.

End Main.

(** * Auxiliary definitions for the proofs *)

Module Aux.
Import Sql Conn Py Ind1 Cli.

(** [CREATE TABLE IF NOT EXISTS] on the state it leaves. *)
Definition ensure_table (name : string) (cols : list column) (d : db) : db :=
  match lookup name d with
  | Some _ => d
  | None => update name (mktable cols [] 0) d
  end.

(** A database file written by another schema, on which the [SELECT] of
    [select_all] resolves: a [trains] table with the columns it names and
    a [groups] table with [group_title] and [trains_nomer]. *)
Definition legacy_db : db :=
  [ ("trains",
     mktable [ mkcol "trains_punkt" false true; mkcol "trains_nomer" false true;
               mkcol "train_nomer" false true; mkcol "train_time" false true ]
             [ [ ("trains_punkt", VText "Moscow"); ("trains_nomer", VInt 1);
                 ("train_nomer", VInt 42); ("train_time", VInt 800) ] ]
             1);
    ("groups",
     mktable [ mkcol "group_title" false true; mkcol "trains_nomer" false true ]
             [ [ ("group_title", VInt 42); ("trains_nomer", VInt 1) ] ]
             1) ].

(** The options of a subparser never store into [punkt_nazn], and
    [--db] stores a string. *)
Definition opts_ok (opts : list opt) : Prop :=
  Forall (fun o => match o_action o with
                   | AStore d i _ => d <> "punkt_nazn" /\ (d = "db" -> i = false)
                   | _ => True
                   end) opts.

(** A namespace filled by a subparser: no [punkt_nazn], a string [db]. *)
Definition ns_ok (ns : namespace) : Prop :=
  lookup "punkt_nazn" ns = None /\ exists s, lookup "db" ns = Some (PStr s).

(** A function body that never changes the committed file. *)
Definition keeps_disk {A} (m : M A) : Prop :=
  forall c, c_disk (snd (m c)) = c_disk c.

(** A function body that leaves the committed file as it was whenever it
    raises. *)
Definition keeps_disk_on_exc {A} (m : M A) : Prop :=
  forall c e c', m c = (Exc e, c') -> c_disk c' = c_disk c.

(** The Python type of a stored argument: [None] (the default), or the
    type its [type=] conversion gives. *)
Definition typed (is_int : bool) (v : pyval) : Prop :=
  match v with
  | PNone => True
  | PInt _ => is_int = true
  | PStr _ => is_int = false
  end.

(** What a subparser has stored: every option's destination holds a value
    of its type, not [None] once the option was seen. *)
Definition sub_inv (opts : list opt) (ns : namespace) (seen : list string)
  : Prop :=
  forall o d i r, In o opts -> o_action o = AStore d i r ->
    exists v, lookup d ns = Some v /\ typed i v /\ (In d seen -> v <> PNone).

(** Options of one parser storing into the same destination convert it
    the same way. *)
Definition dests_consistent (opts : list opt) : Prop :=
  forall o o' d i r i' r', In o opts -> In o' opts ->
    o_action o = AStore d i r -> o_action o' = AStore d i' r' -> i = i'.

(** The three values a row of [display_trains] formats are not [None]
    ([train.get(k, '')] with [k] missing gives the string ['']). *)
Definition cells_ok (t : dict) : Prop :=
  Py.get t "punkt_nazn" (PStr "") <> PNone /\ Py.get t "nomer" (PStr "") <> PNone /\
  Py.get t "time" (PStr "") <> PNone.

(** The text [str.format] pads for a value. *)
Definition cell_text (v : pyval) : string :=
  match v with
  | PStr s => s
  | PInt z => z_str z
  | PNone => EmptyString
  end.

(** A file whose [trains] table lacks [train_punkt]: the lookup query of
    [add_train] runs, the group row is inserted, and the train [INSERT]
    fails. *)
Definition partial_db : db :=
  [ ("trains", mktable [ mkcol "train_nomer" false true;
                         mkcol "group_title" false false ] [] 0);
    ("groups", mktable [ mkcol "group_id" true false;
                         mkcol "group_title" false true ] [] 0) ].

(** A file on which every statement of [add_train] resolves. *)
Definition adder_db : db :=
  [ ("trains", mktable [ mkcol "train_id" true false;
                         mkcol "train_punkt" false true;
                         mkcol "train_nomer" false true;
                         mkcol "train_time" false true;
                         mkcol "group_title" false false ] [] 0);
    ("groups", mktable [ mkcol "group_id" true false;
                         mkcol "group_title" false true ] [] 0) ].

End Aux.

(** * Properties *)

Module Facts.
Import Sql Conn Py Ind1 Cli Main Aux.

Lemma lookup_update_eq {A} (k : string) (v : A) l :
  lookup k (update k v l) = Some v.
Proof.
  induction l as [|[k' a'] l IH]; simpl.
  - now rewrite String.eqb_refl.
  - destruct (String.eqb k k') eqn:E; simpl.
    + now rewrite String.eqb_refl.
    + now rewrite E.
Qed.

Lemma lookup_update_neq {A} (k k' : string) (v : A) l :
  k <> k' -> lookup k (update k' v l) = lookup k l.
Proof.
  intros Hne. induction l as [|[k'' a''] l IH]; simpl.
  - destruct (String.eqb_spec k k'); congruence.
  - destruct (String.eqb_spec k' k''); simpl.
    + subst. destruct (String.eqb_spec k k''); congruence.
    + now rewrite IH.
Qed.

Lemma lookup_ensure_table name cols d :
  exists tb, lookup name (ensure_table name cols d) = Some tb.
Proof.
  unfold ensure_table. destruct (lookup name d) eqn:E.
  - eauto.
  - rewrite lookup_update_eq. eauto.
Qed.

Lemma lookup_ensure_table_neq name name' cols d :
  name <> name' ->
  lookup name (ensure_table name' cols d) = lookup name d.
Proof.
  intros Hne. unfold ensure_table.
  destruct (lookup name' d); [reflexivity|].
  now apply lookup_update_neq.
Qed.

Lemma ensure_table_present name cols d tb :
  lookup name d = Some tb -> ensure_table name cols d = d.
Proof. unfold ensure_table. now intros ->. Qed.

(** [create_db] never raises, and adds the missing tables. *)
Lemma create_db_run d :
  run create_db d =
  (Ok tt, ensure_table "students" students_columns
            (ensure_table "groups" groups_columns d)).
Proof.
  unfold run, create_db, bind, execute, close, connect, current,
    set_current, exec_stmt; simpl.
  unfold ensure_table.
  destruct (lookup "groups" d) eqn:Eg; simpl;
  [destruct (lookup "students" d) eqn:Es; reflexivity|].
  rewrite lookup_update_neq by discriminate.
  destruct (lookup "students" d); reflexivity.
Qed.

Lemma create_db_no_trains d :
  lookup "trains" d = None ->
  lookup "trains" (snd (run create_db d)) = None.
Proof.
  intros H. rewrite create_db_run; simpl.
  rewrite !lookup_ensure_table_neq by discriminate. exact H.
Qed.

(** A [SELECT] that succeeds returns the database it was given. *)
Lemma exec_select_db proj from join w ps d d' rows lid :
  exec_stmt (SelectFrom proj from join w) ps d = Ok (d', rows, lid) -> d' = d.
Proof.
  unfold exec_stmt.
  destruct (negb _); [discriminate|].
  destruct (lookup from d); [|discriminate].
  destruct join as [[[jt a] b]|]; [destruct (lookup jt d)|]; try discriminate;
  destruct (first_error _); try discriminate; congruence.
Qed.

(** On a fresh connection, a [SELECT] leaves the file as it was. *)
Lemma execute_select_disk proj from join w ps d :
  c_disk (snd (execute (SelectFrom proj from join w) ps (connect d))) = d
  /\ c_tx (snd (execute (SelectFrom proj from join w) ps (connect d))) = None.
Proof.
  unfold execute, connect, current; simpl.
  destruct (exec_stmt (SelectFrom proj from join w) ps d) as [[[d' rows] lid]|e] eqn:E; simpl; auto.
  apply exec_select_db in E. subst. auto.
Qed.

Lemma first_error_some l :
  (exists e, In (Some e) l) -> exists e, first_error l = Some e /\ In (Some e) l.
Proof.
  induction l as [|[e'|] l IH]; simpl; intros [e He].
  - contradiction.
  - eauto.
  - destruct He as [He|He]; [discriminate|].
    destruct IH as [e'' [H1 H2]]; eauto.
Qed.

Lemma first_error_some_in l e :
  first_error l = Some e -> In (Some e) l.
Proof.
  induction l as [|[e'|] l IH]; simpl; intros H.
  - discriminate.
  - injection H; intros ->; auto.
  - auto.
Qed.

Lemma resolve_operational srcs c e :
  resolve srcs c = Some e -> exists m, e = OperationalError m.
Proof.
  unfold resolve, no_such_column.
  destruct (qual c) as [t|].
  - destruct (lookup t srcs) as [tb|]; [destruct (has_col tb (col c))|];
    intros H; try discriminate; injection H; intros <-; eauto.
  - destruct (List.length _) as [|[|]];
    intros H; try discriminate; injection H; intros <-; eauto.
Qed.

Lemma update_update {A} (k : string) (v w : A) l :
  update k v (update k w l) = update k v l.
Proof.
  induction l as [|[k' a'] l IH]; simpl.
  - now rewrite String.eqb_refl.
  - destruct (String.eqb k k') eqn:E; simpl.
    + now rewrite String.eqb_refl.
    + now rewrite E, IH.
Qed.

Lemma lookup_in {A} (k : string) (v : A) l :
  lookup k l = Some v -> In (k, v) l.
Proof.
  induction l as [|[k' a'] l IH]; simpl; [discriminate|].
  destruct (String.eqb_spec k k'); [intros H; injection H; intros ->; subst; auto|].
  intros H; right; auto.
Qed.

Lemma select_all_no_trains d :
  lookup "trains" d = None ->
  run select_all d = (Exc (no_such_table "trains"), d).
Proof.
  intros H. unfold run, select_all, bind, execute, connect, current, exec_stmt.
  simpl. now rewrite H.
Qed.

(** ** The parser never sets [punkt_nazn] *)

Lemma classify_in opts tok o e :
  classify opts tok = Known o e -> In o opts.
Proof.
  unfold classify.
  destruct (_ || _); [discriminate|].
  destruct (find (has_opt_string tok) opts) as [o'|] eqn:F.
  { intros H; injection H; intros _ <-. exact (proj1 (find_some _ _ F)). }
  destruct (split_eq tok) as [[name v]|].
  { destruct (find (has_opt_string name) opts) as [o'|] eqn:F'; [|discriminate].
    intros H; injection H; intros _ <-. exact (proj1 (find_some _ _ F')). }
  destruct (starts_with "--" tok).
  - destruct (filter _ opts) as [|o' [|o'' l]] eqn:Fl;
      [destruct (has_space tok)| |]; try discriminate.
    intros H; injection H; intros _ <-.
    assert (Hin : In o' (filter (fun o => existsb (fun s => starts_with "--" s
                    && starts_with tok s) (o_strings o)) opts))
      by (rewrite Fl; simpl; auto).
    apply filter_In in Hin. tauto.
  - destruct (Nat.ltb 2 (String.length tok)).
    + destruct (find (has_opt_string (substring 0 2 tok)) opts) as [o'|] eqn:F'.
      * intros H; injection H; intros _ <-. exact (proj1 (find_some _ _ F')).
      * destruct (neg_number tok || has_space tok); discriminate.
    + destruct (neg_number tok); discriminate.
Qed.

Lemma ns_ok_update ns dest is_int v pv :
  ns_ok ns ->
  dest <> "punkt_nazn" -> (dest = "db" -> is_int = false) ->
  store_value is_int v = Some pv ->
  ns_ok (update dest pv ns).
Proof.
  intros [Hp [s Hs]] Hd Hdb Hv. split.
  - rewrite lookup_update_neq by congruence. exact Hp.
  - destruct (String.eqb_spec "db" dest) as [<-|Hne].
    + rewrite lookup_update_eq. rewrite (Hdb eq_refl) in Hv.
      unfold store_value in Hv. injection Hv; intros <-. eauto.
    + rewrite lookup_update_neq by exact Hne. eauto.
Qed.

Lemma parse_sub_ns_ok fuel prog opts toks ns seen extras ns' seen' extras' :
  opts_ok opts -> ns_ok ns ->
  parse_sub fuel prog opts toks ns seen extras = inr (ns', seen', extras') ->
  ns_ok ns'.
Proof.
  intros Hopts.
  revert toks ns seen extras.
  induction fuel as [|fuel IH]; intros toks ns seen extras Hns; simpl;
    [discriminate|].
  destruct toks as [|tok rest]; [intros H; injection H; intros; subst; auto|].
  destruct (classify opts tok) as [| o explicit | |] eqn:C;
    [apply IH; auto | | discriminate | apply IH; auto].
  pose proof (classify_in _ _ _ _ C) as Hin.
  pose proof (proj1 (Forall_forall _ opts) Hopts o Hin) as Ho.
  cbv beta in Ho. revert Ho.
  destruct (o_action o) as [| |dest is_int req];
    [destruct explicit; discriminate | destruct explicit; discriminate|].
  intros [Hd Hdb].
  match goal with
  | |- context [match ?a with Some _ => _ | None => _ end] =>
      destruct a as [[v rest']|]; [|discriminate]
  end.
  destruct (store_value is_int v) as [pv|] eqn:Hv; [|discriminate].
  apply IH. eapply ns_ok_update; eauto.
Qed.

Lemma parse_sub_exit fuel prog opts toks ns seen extras p :
  parse_sub fuel prog opts toks ns seen extras = inl p ->
  exists code out, p = ParseExit code out.
Proof.
  revert toks ns seen extras.
  induction fuel as [|fuel IH]; intros toks ns seen extras; simpl.
  - intros H; injection H; intros <-. unfold usage_error. eauto.
  - destruct toks as [|tok rest]; [discriminate|].
    destruct (classify opts tok) as [| o explicit | |];
      [apply IH | | intros H; injection H; intros <-; unfold usage_error; eauto
      | apply IH].
    destruct (o_action o) as [| |dest is_int req];
      [destruct explicit; intros H; injection H; intros <-; unfold usage_error;
       eauto ..|].
    match goal with
    | |- context [match ?a with Some _ => _ | None => _ end] =>
        destruct a as [[v rest']|];
        [|intros H; injection H; intros <-; unfold usage_error; eauto]
    end.
    destruct (store_value is_int v);
      [apply IH | intros H; injection H; intros <-; unfold usage_error; eauto].
Qed.

Lemma subcommand_opts_ok cwd tok opts :
  subcommand_opts tok = Some opts -> opts_ok opts /\ ns_ok (defaults cwd opts).
Proof.
  unfold subcommand_opts.
  destruct (String.eqb tok "add");
    [|destruct (String.eqb tok "display");
      [|destruct (String.eqb tok "select"); [|discriminate]]];
  intros H; injection H; intros <-;
  (split; [repeat constructor; simpl; try discriminate; try congruence
          | split; [reflexivity | eexists; reflexivity]]).
Qed.

(** What the parser returns for a subcommand. *)
Lemma parse_top_command cwd toks extras ns tok :
  parse_top cwd toks extras = Parsed ns ->
  lookup "command" ns = Some (PStr tok) ->
  exists ns', ns = ("command", PStr tok) :: ns' /\ ns_ok ns'.
Proof.
  revert extras. induction toks as [|t rest IH]; intros extras; cbn [parse_top].
  - destruct (0 <? _)%nat; [discriminate|].
    intros H; injection H; intros <-. simpl. discriminate.
  - destruct (classify top_opts t) as [| o [e|] | |];
      try (destruct (o_action o)); try discriminate; [|apply IH].
    destruct (subcommand_opts t) as [opts|] eqn:Hsub; [|discriminate].
    destruct (parse_sub (S (List.length rest)) ("trains " ++ t) opts rest
                (defaults cwd opts) [] extras)
      as [p|[[ns' seen] extras']] eqn:Hp.
    + intros Hpn. subst p.
      destruct (parse_sub_exit _ _ _ _ _ _ _ _ Hp) as [code [out Hc]].
      discriminate Hc.
    + destruct (existsb _ _); [discriminate|].
      destruct (0 <? _)%nat; [discriminate|].
      intros H; injection H; intros <-. simpl. intros Ht.
      injection Ht; intros <-.
      destruct (subcommand_opts_ok cwd t opts Hsub) as [Ho Hd].
      exists ns'. split; [reflexivity|].
      eapply parse_sub_ns_ok; eauto.
Qed.

Lemma create_db_ok d : run create_db d = (Ok tt, snd (run create_db d)).
Proof. now rewrite create_db_run. Qed.

Lemma fs_get_set p d f : fs_get p (fs_set p d f) = d.
Proof. unfold fs_get, fs_set. now rewrite lookup_update_eq. Qed.

Lemma fs_set_set p d d' f : fs_set p d (fs_set p d' f) = fs_set p d f.
Proof. apply update_update. Qed.

(** ** The table renderer *)

Lemma format_row_ok idx (t : dict) :
  cells_ok t -> exists s, format_row idx t = Ok s.
Proof.
  unfold cells_ok, format_row. cbn [format].
  destruct (get t "punkt_nazn" (PStr "")), (get t "nomer" (PStr "")),
    (get t "time" (PStr "")); cbn [format]; intros [H1 [H2 H3]];
    try congruence; eauto.
Qed.

Lemma print_rows_ok (trains : list dict) idx :
  Forall cells_ok trains ->
  exists rows, print_rows idx trains = (rows, None) /\
    List.length rows = List.length trains /\
    forall i t, nth_error trains i = Some t ->
      exists s, format_row (idx + Z.of_nat i) t = Ok s /\ nth_error rows i = Some s.
Proof.
  revert idx. induction trains as [|t ts IH]; intros idx Hall; simpl.
  - exists []. split; [reflexivity|]. split; [reflexivity|].
    intros [|i] t H; discriminate.
  - inversion Hall as [|? ? Ht Hts]; subst.
    destruct (format_row_ok idx t Ht) as [s Hs]. rewrite Hs.
    destruct (IH (idx + 1)%Z Hts) as [rows [Hp [Hl Hn]]]. rewrite Hp.
    exists (s :: rows). split; [reflexivity|]. split; [simpl; congruence|].
    intros [|i] t' Hi; simpl in Hi.
    + injection Hi; intros <-. exists s. rewrite Z.add_0_r. auto.
    + destruct (Hn i t' Hi) as [s' [Hs' Hr]]. exists s'. split; [|exact Hr].
      rewrite <- Hs'. f_equal. lia.
Qed.

End Facts.

Module Claims.
Import Sql Conn Py Ind1 Cli Main Aux Facts.

(** The shape shared by [select_all] and [select_by_num]. *)
Lemma select_then_fetch_disk proj from join w ps d :
  snd (run (execute (SelectFrom proj from join w) ps ;;;
            rows <- fetchall ;; close ;;; ret (map to_record rows)) d) = d.
Proof.
  destruct (execute_select_disk proj from join w ps d) as [Hd Htx].
  unfold run, bind.
  destruct (execute (SelectFrom proj from join w) ps (connect d))
    as [[u|e] c] eqn:E; simpl in *; [|exact Hd].
  exact Hd.
Qed.

(** C8: schema initialization never raises and is idempotent: a second
    [create_db] on the file leaves it exactly as the first one did. *)
Theorem create_db_idempotent (d : db) :
  fst (run create_db d) = Ok tt /\
  run create_db (snd (run create_db d)) = (Ok tt, snd (run create_db d)).
Proof.
  rewrite !create_db_run; simpl. split; [reflexivity|].
  f_equal.
  destruct (lookup_ensure_table "groups" groups_columns d) as [tg Hg].
  set (d1 := ensure_table "groups" groups_columns d) in *.
  destruct (lookup_ensure_table "students" students_columns d1) as [ts Hs].
  set (d2 := ensure_table "students" students_columns d1) in *.
  assert (Hg2 : lookup "groups" d2 = Some tg).
  { subst d2. rewrite lookup_ensure_table_neq by discriminate. exact Hg. }
  rewrite (ensure_table_present "groups" groups_columns d2 tg Hg2).
  exact (ensure_table_present "students" students_columns d2 ts Hs).
Qed.

(** C10: [select_all] and [select_by_num] leave the database file as they
    found it, whether they return or raise. *)
Theorem select_read_only (d : db) (nomer : pyval) :
  snd (run select_all d) = d /\ snd (run (select_by_num nomer) d) = d.
Proof.
  split; apply select_then_fetch_disk.
Qed.

(** C2: on a database initialized by [create_db] (from a file that has no
    [trains] table), [add_train] raises [no such table: trains] at its
    first query, and the file keeps no new train record and no new group
    row. *)
Theorem add_train_initialized_raises (d : db) (punkt_nazn nomer time : pyval)
    (Hfresh : lookup "trains" d = None) :
  run (add_train punkt_nazn nomer time) (snd (run create_db d)) =
  (Exc (no_such_table "trains"), snd (run create_db d)).
Proof.
  pose proof (create_db_no_trains d Hfresh) as H1.
  set (d1 := snd (run create_db d)) in *.
  unfold run, add_train, bind, execute, connect, current, exec_stmt; simpl.
  now rewrite H1.
Qed.

(** C6: [select_by_num] raises [OperationalError] on every database:
    its join condition names [students], which is not in its [FROM]
    clause. *)
Theorem select_by_num_always_raises (d : db) (nomer : pyval) :
  exists m, run (select_by_num nomer) d = (Exc (OperationalError m), d).
Proof.
  unfold run, select_by_num, bind, execute, connect, current.
  cbn [c_tx c_disk].
  destruct (exec_stmt select_by_num_query [to_sql nomer] d)
    as [[[d' rows] lid]|e] eqn:E.
  - exfalso. revert E. unfold exec_stmt, select_by_num_query; simpl.
    destruct (lookup "trains" d) as [tb|]; [|intros H; discriminate H].
    destruct (lookup "groups" d) as [tg|]; [|intros H; discriminate H].
    simpl.
    (* the reference [students.train_nomer] does not resolve *)
    repeat match goal with
           | |- context [resolve ?s ?c] => destruct (resolve s c)
           end; intros H; discriminate H.
  - revert E. unfold exec_stmt, select_by_num_query; simpl.
    destruct (lookup "trains" d) as [tb|];
      [|intros H; injection H; intros <-; cbn; eexists; reflexivity].
    destruct (lookup "groups" d) as [tg|];
      [|intros H; injection H; intros <-; cbn; eexists; reflexivity].
    simpl.
    repeat match goal with
           | |- context [resolve ?s ?c] =>
               let Hr := fresh "Hr" in destruct (resolve s c) eqn:Hr
           end; intros H; try discriminate H; injection H; intros <-;
    try match goal with
        | Hr : resolve _ _ = Some ?e |- context [?e] =>
            destruct (resolve_operational _ _ _ Hr) as [m ->]
        end; cbn; unfold no_such_column; eexists; reflexivity.
Qed.

(** C1: the scenario [add -p Moscow -n 42 -t 800] then [display] on a new
    database file: [add] ends with an uncaught exception ([args.punkt_nazn]
    is not an attribute of the parsed arguments) after creating the
    schema, and [display] ends with an uncaught exception ([no such table:
    trains]) without printing any row. *)
Theorem add_then_display_no_round_trip :
  let o1 := main "/home" ["add"; "-p"; "Moscow"; "-n"; "42"; "-t"; "800"] [] in
  exit_code o1 = 1%Z /\
  files o1 = [("/home/trains.db", snd (run create_db empty_db))] /\
  main "/home" ["display"] (files o1) = mkoutcome 1%Z [] (files o1).
Proof.
  intros o1. split; [|split]; vm_compute; reflexivity.
Qed.

(** C3: whenever the command line parses to the [add] subcommand, [main]
    creates the schema and then raises [AttributeError] on
    [args.punkt_nazn] (the parser stores the destination under [punkt]):
    [add_train] is never called, nothing is printed and the status is 1. *)
Theorem add_command_never_reaches_add_train (cwd : string)
    (command_line : list string) (f : fs) (args : namespace)
    (Hparse : parse_args cwd command_line = Parsed args)
    (Hadd : lookup "command" args = Some (PStr "add")) :
  exists p, main cwd command_line f =
            mkoutcome 1%Z [] (fs_set p (snd (run create_db (fs_get p f))) f).
Proof.
  destruct (parse_top_command _ _ _ _ _ Hparse Hadd) as [ns [-> [Hpn [p Hdb]]]].
  exists p. unfold main. rewrite Hparse.
  unfold dispatch, getattr, call. cbn [lookup String.eqb Ascii.eqb Bool.eqb].
  rewrite Hdb. cbn [or_raise path].
  rewrite create_db_ok. cbn [or_raise py_eq String.eqb Ascii.eqb Bool.eqb].
  rewrite Hpn. reflexivity.
Qed.

(** C4: [display] on a database file without a [trains] table (e.g. a
    new one, which [create_db] initializes) prints nothing but does not
    complete normally: [select_all] raises [no such table: trains] and the
    process ends with status 1. *)
Theorem display_initialized_raises (cwd : string) (f : fs)
    (Hfresh : lookup "trains" (fs_get (default_db cwd) f) = None) :
  main cwd ["display"] f =
  mkoutcome 1%Z []
    (fs_set (default_db cwd) (snd (run create_db (fs_get (default_db cwd) f))) f).
Proof.
  assert (Hparse : parse_args cwd ["display"] =
                   Parsed [("command", PStr "display"); ("db", PStr (default_db cwd))])
    by reflexivity.
  pose proof (create_db_no_trains _ Hfresh) as H1.
  set (p := default_db cwd) in *.
  set (d1 := snd (run create_db (fs_get p f))) in *.
  unfold main. rewrite Hparse.
  unfold dispatch, getattr, call. cbn [lookup String.eqb Ascii.eqb Bool.eqb].
  cbn [or_raise path].
  rewrite create_db_ok. fold d1.
  cbn [or_raise py_eq String.eqb Ascii.eqb Bool.eqb].
  rewrite fs_get_set, (select_all_no_trains _ H1), fs_set_set.
  reflexivity.
Qed.

(** C5 (counterexample): with no subcommand [main] raises [AttributeError]
    on [args.db] (only the subparsers define [--db]) before any schema
    initialization, and ends with status 1; an unknown subcommand is
    rejected by the parser with status 2. *)
Lemma no_or_unknown_subcommand_outcomes :
  main "/home" [] [] = mkoutcome 1%Z [] [] /\
  main "/home" ["foo"] [] = mkoutcome 2%Z [] [].
Proof. split; reflexivity. Qed.

(** C5 (amended): a command line whose first token is not an option and
    not one of [add], [display], [select] is rejected by the argument
    parser: exit status 2, nothing on standard output, no database file
    touched. *)
Theorem unknown_subcommand_rejected (cwd tok : string) (rest : list string)
    (f : fs)
    (Hpos : String.prefix "-" tok = false)
    (Hunknown : subcommand_opts tok = None) :
  main cwd (tok :: rest) f = mkoutcome 2%Z [] f.
Proof.
  unfold main, parse_args. cbn [parse_top].
  assert (Hc : classify top_opts tok = Positional).
  { unfold classify, starts_with. now rewrite Hpos. }
  rewrite Hc, Hunknown. reflexivity.
Qed.

(** C7: on a file where the query of [select_all] resolves, the record it
    returns carries [trains.train_nomer] (42) in its ["time"] field, not
    the stored departure time [train_time] (800). *)
Theorem select_all_time_field_is_number :
  run select_all legacy_db =
  (Ok [[("punkt_nazn", PStr "Moscow"); ("nomer", PInt 42); ("time", PInt 42)]],
   legacy_db) /\
  (exists tb, lookup "trains" legacy_db = Some tb /\
              In [("trains_punkt", VText "Moscow"); ("trains_nomer", VInt 1);
                  ("train_nomer", VInt 42); ("train_time", VInt 800)] (t_rows tb)).
Proof.
  split.
  - vm_compute. reflexivity.
  - eexists. split; [reflexivity|]. simpl. auto.
Qed.

(** C9 (amended): [display_trains] prints nothing for an empty sequence;
    for a non-empty sequence of records none of whose destination, number
    and time values is [None], it prints a border, the header row, a
    border, one formatted row per record in order with indexes from 1, and
    a closing border; the border and the header have the same width. *)
Theorem display_trains_table (trains : list dict)
    (Hvals : Forall cells_ok trains) :
  display_trains [] = ([], None) /\
  cp_len line = cp_len header /\
  (trains <> [] ->
   exists rows,
     display_trains trains = ([line; header; line] ++ rows ++ [line], None)%list /\
     List.length rows = List.length trains /\
     forall i t, nth_error trains i = Some t ->
       exists s, format_row (Z.of_nat (S i)) t = Ok s /\ nth_error rows i = Some s).
Proof.
  split; [reflexivity|]. split; [vm_compute; reflexivity|].
  intros Hne. destruct trains as [|t0 ts]; [congruence|].
  destruct (print_rows_ok (t0 :: ts) 1 Hvals) as [rows [Hp [Hl Hn]]].
  exists rows. split; [|split; [exact Hl|]].
  - unfold display_trains. rewrite Hp. reflexivity.
  - intros i t Hi. destruct (Hn i t Hi) as [s [Hs Hr]]. exists s.
    split; [|exact Hr]. rewrite <- Hs. f_equal. lia.
Qed.

(** ** Witnesses *)

Lemma add_train_initialized_raises_witness :
  lookup "trains" empty_db = None /\
  run (add_train (PStr "Moscow") (PInt 42) (PInt 800)) (snd (run create_db empty_db)) =
  (Exc (no_such_table "trains"), snd (run create_db empty_db)).
Proof.
  split; [reflexivity|].
  apply (add_train_initialized_raises empty_db); reflexivity.
Defined.

Lemma add_command_never_reaches_add_train_witness :
  parse_args "/home" ["add"; "-p"; "Moscow"; "-n"; "42"; "-t"; "800"] =
    Parsed [("command", PStr "add"); ("db", PStr "/home/trains.db");
            ("punkt", PStr "Moscow"); ("nomer", PInt 42); ("time", PInt 800)] /\
  exists p, main "/home" ["add"; "-p"; "Moscow"; "-n"; "42"; "-t"; "800"] [] =
            mkoutcome 1%Z [] (fs_set p (snd (run create_db (fs_get p []))) []).
Proof.
  split; [vm_compute; reflexivity|].
  apply (add_command_never_reaches_add_train "/home"
           ["add"; "-p"; "Moscow"; "-n"; "42"; "-t"; "800"] []
           [("command", PStr "add"); ("db", PStr "/home/trains.db");
            ("punkt", PStr "Moscow"); ("nomer", PInt 42); ("time", PInt 800)]);
    vm_compute; reflexivity.
Defined.

Lemma display_initialized_raises_witness :
  lookup "trains" (fs_get (default_db "/home") []) = None /\
  main "/home" ["display"] [] =
  mkoutcome 1%Z []
    (fs_set (default_db "/home")
       (snd (run create_db (fs_get (default_db "/home") []))) []).
Proof.
  split; [reflexivity|].
  apply (display_initialized_raises "/home" []); reflexivity.
Defined.

Lemma unknown_subcommand_rejected_witness :
  String.prefix "-" "foo" = false /\ subcommand_opts "foo" = None /\
  main "/home" ["foo"; "--db"; "x.db"] [] = mkoutcome 2%Z [] [].
Proof.
  split; [reflexivity|]. split; [reflexivity|].
  apply unknown_subcommand_rejected; reflexivity.
Defined.

Lemma display_trains_table_witness :
  Forall cells_ok
    [[("punkt_nazn", PStr "Moscow"); ("nomer", PInt 42); ("time", PInt 800)]] /\
  (display_trains [] = ([], None) /\
   cp_len line = cp_len header /\
   ([[("punkt_nazn", PStr "Moscow"); ("nomer", PInt 42); ("time", PInt 800)]]
      <> [] ->
    exists rows,
      display_trains
        [[("punkt_nazn", PStr "Moscow"); ("nomer", PInt 42); ("time", PInt 800)]] =
        ([line; header; line] ++ rows ++ [line], None)%list /\
      List.length rows = 1%nat /\
      forall i t,
        nth_error
          [[("punkt_nazn", PStr "Moscow"); ("nomer", PInt 42); ("time", PInt 800)]]
          i = Some t ->
        exists s, format_row (Z.of_nat (S i)) t = Ok s /\ nth_error rows i = Some s)).
Proof.
  assert (H : Forall cells_ok
    [[("punkt_nazn", PStr "Moscow"); ("nomer", PInt 42); ("time", PInt 800)]]).
  { repeat constructor; discriminate. }
  split; [exact H|].
  apply (display_trains_table
           [[("punkt_nazn", PStr "Moscow"); ("nomer", PInt 42); ("time", PInt 800)]]
           H).
Defined.

(** C9 (counterexample): a record whose number is [None] (as [add]
    leaves it when [-n] is not given): after the border, the header and
    the border, formatting its row raises [TypeError]; no data row and no
    closing border are printed. *)
Lemma display_trains_none_raises :
  display_trains
    [[("punkt_nazn", PStr "Moscow"); ("nomer", PNone); ("time", PInt 800)]] =
  ([line; header; line],
   Some (TypeError "unsupported format string passed to NoneType.__format__")).
Proof. vm_compute. reflexivity. Qed.

End Claims.

(** * Further properties of [ind1.py] *)

Module Extra.
Import Sql Conn Py Ind1 Cli Main Aux Facts.

(** ** [create_db] *)

Lemma lookup_ensure_table_keep k name cols d tb :
  lookup k d = Some tb -> lookup k (ensure_table name cols d) = Some tb.
Proof.
  intros H. destruct (String.eqb_spec k name) as [->|Hne].
  - now rewrite (ensure_table_present _ cols _ _ H).
  - now rewrite lookup_ensure_table_neq.
Qed.

(** [create_db] keeps every table already in the file, contents included;
    afterwards [groups] and [students] exist, and each one it had to
    create is empty with the declared columns. *)
Theorem create_db_keeps_and_creates (d : db) :
  (forall k tb, lookup k d = Some tb ->
     lookup k (snd (run create_db d)) = Some tb) /\
  (lookup "groups" d = None ->
     lookup "groups" (snd (run create_db d)) = Some (mktable groups_columns [] 0)) /\
  (lookup "students" d = None ->
     lookup "students" (snd (run create_db d)) =
       Some (mktable students_columns [] 0)) /\
  (exists tg ts, lookup "groups" (snd (run create_db d)) = Some tg /\
                 lookup "students" (snd (run create_db d)) = Some ts).
Proof.
  rewrite create_db_run; simpl.
  split; [|split; [|split]].
  - intros k tb H. now apply lookup_ensure_table_keep, lookup_ensure_table_keep.
  - intros H. rewrite lookup_ensure_table_neq by discriminate.
    unfold ensure_table. rewrite H. apply lookup_update_eq.
  - intros H. unfold ensure_table at 1.
    rewrite lookup_ensure_table_neq by discriminate. rewrite H.
    apply lookup_update_eq.
  - destruct (lookup_ensure_table "groups" groups_columns d) as [tg Hg].
    destruct (lookup_ensure_table "students" students_columns
                (ensure_table "groups" groups_columns d)) as [ts Hs].
    exists tg, ts. split; [|exact Hs].
    rewrite lookup_ensure_table_neq by discriminate. exact Hg.
Qed.

(** ** [add_train] is all or nothing *)

Lemma keeps_disk_on_exc_of {A} (m : M A) : keeps_disk m -> keeps_disk_on_exc m.
Proof. intros H c e c' E. specialize (H c). now rewrite E in H. Qed.

Lemma keeps_disk_bind {A B} (m : M A) (k : A -> M B) :
  keeps_disk m -> (forall a, keeps_disk (k a)) -> keeps_disk (bind m k).
Proof.
  intros Hm Hk c. unfold bind. specialize (Hm c).
  destruct (m c) as [[a|e] c1]; simpl in *; [rewrite Hk|]; auto.
Qed.

Lemma keeps_disk_on_exc_bind {A B} (m : M A) (k : A -> M B) :
  keeps_disk m -> (forall a, keeps_disk_on_exc (k a)) ->
  keeps_disk_on_exc (bind m k).
Proof.
  intros Hm Hk c e c' E. unfold bind in E. specialize (Hm c).
  destruct (m c) as [[a|e1] c1]; simpl in Hm.
  - rewrite (Hk a c1 e c' E). exact Hm.
  - injection E; intros <- _. exact Hm.
Qed.

Lemma keeps_disk_ret {A} (a : A) : keeps_disk (ret a).
Proof. intros c. reflexivity. Qed.

Lemma keeps_disk_fetchone : keeps_disk fetchone.
Proof. intros c. unfold fetchone. now destruct (c_pending c). Qed.

Lemma keeps_disk_lastrowid : keeps_disk lastrowid.
Proof. intros c. reflexivity. Qed.

(** An [INSERT] runs inside the implicit transaction it opens. *)
Lemma keeps_disk_insert name cs ps : keeps_disk (execute (InsertInto name cs) ps).
Proof.
  intros c. unfold execute.
  destruct (c_tx c) as [t|] eqn:Et; simpl;
  (destruct (exec_stmt _ _ _) as [[[d' rows] lid]|e]; simpl; [|reflexivity]);
  unfold set_current; simpl; [rewrite Et|]; reflexivity.
Qed.

(** A [SELECT] changes nothing, inside or outside a transaction. *)
Lemma keeps_disk_select proj from join w ps :
  keeps_disk (execute (SelectFrom proj from join w) ps).
Proof.
  intros c. unfold execute.
  destruct (exec_stmt (SelectFrom proj from join w) ps (current c))
    as [[[d' rows] lid]|e] eqn:E; simpl; [|reflexivity].
  apply exec_select_db in E. subst d'.
  unfold set_current, current. destruct (c_tx c); reflexivity.
Qed.

Lemma keeps_disk_on_exc_commit_close : keeps_disk_on_exc (commit ;;; close).
Proof. intros c e c' E. discriminate E. Qed.

(** When [add_train] raises, at whatever statement, the file is left
    exactly as it was: the group row it may have inserted is not
    committed. *)
Theorem add_train_atomic (d : db) (punkt_nazn nomer time : pyval) (e : exn)
    (Hexc : fst (run (add_train punkt_nazn nomer time) d) = Exc e) :
  snd (run (add_train punkt_nazn nomer time) d) = d.
Proof.
  assert (H : keeps_disk_on_exc (add_train punkt_nazn nomer time)).
  { unfold add_train.
    apply keeps_disk_on_exc_bind; [apply keeps_disk_select|intros _].
    apply keeps_disk_on_exc_bind; [apply keeps_disk_fetchone|intros row].
    apply keeps_disk_on_exc_bind.
    - destruct row.
      + apply keeps_disk_ret.
      + apply keeps_disk_bind; [apply keeps_disk_insert|intros _].
        apply keeps_disk_lastrowid.
    - intros _. apply keeps_disk_on_exc_bind; [apply keeps_disk_insert|].
      intros _. apply keeps_disk_on_exc_commit_close. }
  revert Hexc. unfold run.
  destruct (add_train punkt_nazn nomer time (connect d)) as [r c'] eqn:E.
  simpl. intros ->. exact (H _ _ _ E).
Qed.

(** Witness: on [partial_db] the group row is inserted, then the train
    [INSERT] fails; the file is unchanged. *)
Lemma add_train_atomic_witness :
  fst (run (add_train (PStr "Moscow") (PInt 42) (PInt 800)) partial_db) =
    Exc (OperationalError "table trains has no column named train_punkt") /\
  snd (run (add_train (PStr "Moscow") (PInt 42) (PInt 800)) partial_db) =
    partial_db.
Proof.
  split; [reflexivity|].
  apply (add_train_atomic partial_db _ _ _
           (OperationalError "table trains has no column named train_punkt")).
  reflexivity.
Defined.

(** ** What a successful [add_train] stores *)

Lemma execute_insert_ok name cs ps c c' :
  execute (InsertInto name cs) ps c = (Ok tt, c') ->
  exists d' lid, exec_stmt (InsertInto name cs) ps (current c) = Ok (d', [], lid)
    /\ c_tx c' = Some d'.
Proof.
  unfold execute.
  destruct (c_tx c) as [t|] eqn:Et; simpl;
  unfold current; rewrite ?Et; simpl;
  destruct (exec_stmt _ _ _) as [[[d' rows] lid]|e] eqn:E; try discriminate;
  intros H; injection H; intros <-; simpl;
  (assert (rows = []) as ->
     by (revert E; unfold exec_stmt; simpl;
         destruct (negb _); [discriminate|];
         destruct (lookup name _); [|discriminate];
         destruct (find _ cs); [discriminate|];
         destruct (build_row _ _ _ _); [|discriminate];
         intros H'; injection H'; auto));
  exists d', lid; split; auto; unfold set_current; simpl; rewrite ?Et; reflexivity.
Qed.

Lemma exec_insert_ok name cs ps d d' rows lid :
  exec_stmt (InsertInto name cs) ps d = Ok (d', rows, lid) ->
  exists tb r, lookup name d = Some tb /\
    build_row name (t_cols tb) (combine cs ps) (t_seq tb + 1) = Ok r /\
    d' = update name (mktable (t_cols tb) (t_rows tb ++ [r])%list (t_seq tb + 1)) d /\
    (forall c, In c cs -> has_col tb c = true).
Proof.
  unfold exec_stmt. simpl.
  destruct (negb _); [discriminate|].
  destruct (lookup name d) as [tb|]; [|discriminate].
  destruct (find (fun c => negb (has_col tb c)) cs) as [c|] eqn:F; [discriminate|].
  destruct (build_row _ _ _ _) as [r|e] eqn:B; [|discriminate].
  intros H; injection H; intros _ _ <-.
  exists tb, r. repeat split; auto.
  intros c Hc. destruct (has_col tb c) eqn:Hh; [reflexivity|].
  exfalso. eapply (find_none _ _ F) in Hc. rewrite Hh in Hc. discriminate.
Qed.

Lemma update_rows_grow k tb r d :
  lookup k (update k (mktable (t_cols tb) (t_rows tb ++ [r])%list (t_seq tb + 1)) d)
    = Some (mktable (t_cols tb) (t_rows tb ++ [r])%list (t_seq tb + 1)) /\
  List.length (t_rows tb ++ [r])%list = S (List.length (t_rows tb)) /\
  (forall r', In r' (t_rows tb) -> In r' (t_rows tb ++ [r])%list).
Proof.
  split; [apply lookup_update_eq|]. split.
  - rewrite length_app. simpl. lia.
  - intros r' Hr. apply in_or_app. auto.
Qed.

(** When [add_train] returns normally, the [trains] table has exactly one
    row more than before and still holds all its previous rows; the
    [groups] table is either as it was or, in the same way, has exactly
    one row more. *)
Theorem add_train_adds_one_row (d d' : db) (punkt_nazn nomer time : pyval)
    (Hok : run (add_train punkt_nazn nomer time) d = (Ok tt, d')) :
  (exists tb tb',
     lookup "trains" d = Some tb /\ lookup "trains" d' = Some tb' /\
     List.length (t_rows tb') = S (List.length (t_rows tb)) /\
     (forall r, In r (t_rows tb) -> In r (t_rows tb'))) /\
  (lookup "groups" d' = lookup "groups" d \/
   exists tg tg',
     lookup "groups" d = Some tg /\ lookup "groups" d' = Some tg' /\
     List.length (t_rows tg') = S (List.length (t_rows tg)) /\
     (forall r, In r (t_rows tg) -> In r (t_rows tg'))).
Proof.
  revert Hok. unfold run, add_train, bind at 1.
  destruct (execute _ _ (connect d)) as [[u|e] c1] eqn:E1; [|discriminate].
  destruct (execute_select_disk [cref None "train_nomer"] "trains" None
              (Some (cref None "group_title")) [to_sql nomer] d) as [Hd1 Htx1].
  rewrite E1 in Hd1, Htx1. simpl in Hd1, Htx1.
  assert (Hcur1 : current c1 = d) by (unfold current; now rewrite Htx1).
  unfold bind at 1, fetchone.
  destruct (c_pending c1) as [|r0 rs] eqn:Ep.
  - (* no group found: [INSERT INTO groups], then [trains] *)
    unfold bind at 1, bind at 1.
    destruct (execute (InsertInto "groups" ["group_title"]) [to_sql nomer] c1)
      as [[[]|e] c2] eqn:E2; [|discriminate].
    destruct (execute_insert_ok _ _ _ _ _ E2) as [dg [lid [Eg Htx2]]].
    rewrite Hcur1 in Eg.
    destruct (exec_insert_ok _ _ _ _ _ _ _ Eg) as [tg [rg [Htg [_ [-> _]]]]].
    unfold bind at 1, lastrowid, bind at 1.
    match goal with
    | |- context [execute (InsertInto "trains" ?cs) ?ps ?c] =>
        destruct (execute (InsertInto "trains" cs) ps c) as [[[]|e] c3] eqn:E3;
        [|discriminate]
    end.
    destruct (execute_insert_ok _ _ _ _ _ E3) as [d3 [lid3 [Et Htx3]]].
    assert (Hc2 : current c2 = update "groups"
              (mktable (t_cols tg) (t_rows tg ++ [rg])%list (t_seq tg + 1)) d)
      by (unfold current; now rewrite Htx2).
    rewrite Hc2 in Et.
    destruct (exec_insert_ok _ _ _ _ _ _ _ Et) as [tb [r [Htb [_ [-> _]]]]].
    rewrite lookup_update_neq in Htb by discriminate.
    unfold bind, commit, close. simpl. intros H; injection H; intros <-.
    unfold current. rewrite Htx3. simpl.
    destruct (update_rows_grow "trains" tb r
                (update "groups" (mktable (t_cols tg) (t_rows tg ++ [rg])%list
                                   (t_seq tg + 1)) d)) as [Lt [Nt It]].
    destruct (update_rows_grow "groups" tg rg d) as [Lg [Ng Ig]].
    split.
    + exists tb. eexists. split; [exact Htb|]. split; [exact Lt|]. auto.
    + right. exists tg. eexists. split; [exact Htg|].
      rewrite lookup_update_neq by discriminate. split; [exact Lg|]. auto.
  - (* a group found: only [INSERT INTO trains] *)
    unfold bind at 1, ret. unfold bind at 1.
    match goal with
    | |- context [execute (InsertInto "trains" ?cs) ?ps ?c] =>
        destruct (execute (InsertInto "trains" cs) ps c) as [[[]|e] c3] eqn:E3;
        [|discriminate]
    end.
    destruct (execute_insert_ok _ _ _ _ _ E3) as [d3 [lid3 [Et Htx3]]].
    unfold current in Et. simpl in Et. rewrite Htx1 in Et. simpl in Et.
    rewrite Hd1 in Et.
    destruct (exec_insert_ok _ _ _ _ _ _ _ Et) as [tb [r [Htb [_ [-> _]]]]].
    unfold bind, commit, close. simpl. intros H; injection H; intros <-.
    unfold current. rewrite Htx3. simpl.
    destruct (update_rows_grow "trains" tb r d) as [Lt [Nt It]].
    split.
    + exists tb. eexists. split; [exact Htb|]. split; [exact Lt|]. auto.
    + left. rewrite lookup_update_neq by discriminate. reflexivity.
Qed.

Lemma add_train_adds_one_row_witness :
  run (add_train (PStr "Moscow") (PInt 42) (PInt 800)) adder_db =
    (Ok tt, snd (run (add_train (PStr "Moscow") (PInt 42) (PInt 800)) adder_db)) /\
  let d' := snd (run (add_train (PStr "Moscow") (PInt 42) (PInt 800)) adder_db) in
  (exists tb tb',
     lookup "trains" adder_db = Some tb /\ lookup "trains" d' = Some tb' /\
     List.length (t_rows tb') = S (List.length (t_rows tb)) /\
     (forall r, In r (t_rows tb) -> In r (t_rows tb'))) /\
  (lookup "groups" d' = lookup "groups" adder_db \/
   exists tg tg',
     lookup "groups" adder_db = Some tg /\ lookup "groups" d' = Some tg' /\
     List.length (t_rows tg') = S (List.length (t_rows tg)) /\
     (forall r, In r (t_rows tg) -> In r (t_rows tg'))).
Proof.
  assert (H : run (add_train (PStr "Moscow") (PInt 42) (PInt 800)) adder_db =
    (Ok tt, snd (run (add_train (PStr "Moscow") (PInt 42) (PInt 800)) adder_db)))
    by (vm_compute; reflexivity).
  split; [exact H|].
  exact (add_train_adds_one_row _ _ _ _ _ H).
Defined.


(** ** The parsed arguments *)

Lemma store_value_typed is_int v pv :
  store_value is_int v = Some pv -> typed is_int pv /\ pv <> PNone.
Proof.
  unfold store_value. destruct is_int.
  - destruct (py_int v); simpl; [|discriminate].
    intros H; injection H; intros <-. simpl. split; [reflexivity|discriminate].
  - intros H; injection H; intros <-. simpl. split; [reflexivity|discriminate].
Qed.

Lemma sub_inv_update opts ns seen o dest is_int req v pv :
  dests_consistent opts -> sub_inv opts ns seen ->
  In o opts -> o_action o = AStore dest is_int req ->
  store_value is_int v = Some pv ->
  sub_inv opts (update dest pv ns) (dest :: seen).
Proof.
  intros Hc Hinv Ho Ha Hv o' d i r Ho' Ha'.
  destruct (store_value_typed _ _ _ Hv) as [Ht Hn].
  destruct (String.eqb_spec d dest) as [->|Hne].
  - exists pv. rewrite lookup_update_eq.
    rewrite (Hc o' o dest i r is_int req Ho' Ho Ha' Ha). auto.
  - destruct (Hinv o' d i r Ho' Ha') as [w [Hw [Htw Hsw]]].
    exists w. rewrite lookup_update_neq by exact Hne.
    split; [exact Hw|]. split; [exact Htw|].
    intros [H|H]; [congruence|auto].
Qed.

Lemma parse_sub_inv fuel prog opts toks ns seen extras ns' seen' extras' :
  dests_consistent opts -> sub_inv opts ns seen ->
  parse_sub fuel prog opts toks ns seen extras = inr (ns', seen', extras') ->
  sub_inv opts ns' seen'.
Proof.
  intros Hc. revert toks ns seen extras.
  induction fuel as [|fuel IH]; intros toks ns seen extras Hinv; simpl;
    [discriminate|].
  destruct toks as [|tok rest]; [intros H; injection H; intros; subst; auto|].
  destruct (classify opts tok) as [| o explicit | |] eqn:C;
    [apply IH; auto | | discriminate | apply IH; auto].
  pose proof (classify_in _ _ _ _ C) as Hin.
  destruct (o_action o) as [| |dest is_int req] eqn:Ha;
    [destruct explicit; discriminate | destruct explicit; discriminate|].
  match goal with
  | |- context [match ?a with Some _ => _ | None => _ end] =>
      destruct a as [[v rest']|]; [|discriminate]
  end.
  destruct (store_value is_int v) as [pv|] eqn:Hv; [|discriminate].
  apply IH. eapply sub_inv_update; eauto.
Qed.

Lemma existsb_false_forall {A} (f : A -> bool) l :
  existsb f l = false -> forall x, In x l -> f x = false.
Proof.
  induction l as [|a l IH]; simpl; [contradiction|].
  intros H x [<-|Hx]; apply orb_false_iff in H; [tauto|].
  apply IH; tauto.
Qed.

Ltac opts_cases :=
  repeat match goal with
         | H : In _ _ |- _ => simpl in H
         end;
  repeat match goal with
         | H : _ = _ \/ _ |- _ => destruct H as [<-|H]
         | H : False |- _ => destruct H
         end.

Lemma subcommand_opts_inv cwd tok opts :
  subcommand_opts tok = Some opts ->
  dests_consistent opts /\ sub_inv opts (defaults cwd opts) [].
Proof.
  unfold subcommand_opts.
  destruct (String.eqb tok "add");
    [|destruct (String.eqb tok "display");
      [|destruct (String.eqb tok "select"); [|discriminate]]];
  intros H; injection H; intros <-; (split;
  [ intros o o' d i r i' r' Ho Ho' Ha Ha'; opts_cases; unfold help_opt, db_opt in *; simpl in *;
    try discriminate; congruence
  | intros o d i r Ho Ha; opts_cases; unfold help_opt, db_opt in *; simpl in *; try discriminate;
    injection Ha; intros <- <- <-;
    (eexists; split; [reflexivity|split; [simpl; auto|contradiction]]) ]).
Qed.

(** What [parse_args] returns for a subcommand: its options' values, of
    their types, with every required option given. *)
Lemma parse_top_sub cwd toks extras ns tok :
  parse_top cwd toks extras = Parsed ns ->
  lookup "command" ns = Some (PStr tok) ->
  exists opts ns' seen,
    subcommand_opts tok = Some opts /\ ns = ("command", PStr tok) :: ns' /\
    sub_inv opts ns' seen /\
    (forall d, In d (required_dests opts) -> In d seen).
Proof.
  revert extras. induction toks as [|t rest IH]; intros extras; cbn [parse_top].
  - destruct (0 <? _)%nat; [discriminate|].
    intros H; injection H; intros <-. simpl. discriminate.
  - destruct (classify top_opts t) as [| o [e|] | |];
      try (destruct (o_action o)); try discriminate; [|apply IH].
    destruct (subcommand_opts t) as [opts|] eqn:Hsub; [|discriminate].
    destruct (parse_sub (S (List.length rest)) ("trains " ++ t) opts rest
                (defaults cwd opts) [] extras)
      as [p|[[ns' seen] extras']] eqn:Hp.
    + intros Hpn. subst p.
      destruct (parse_sub_exit _ _ _ _ _ _ _ _ Hp) as [code [out Hc]].
      discriminate Hc.
    + destruct (existsb _ (required_dests opts)) eqn:Hreq; [discriminate|].
      destruct (0 <? _)%nat; [discriminate|].
      intros H; injection H; intros <-. simpl. intros Ht.
      injection Ht; intros <-.
      destruct (subcommand_opts_inv cwd t opts Hsub) as [Hc Hi].
      exists opts, ns', seen. split; [exact Hsub|]. split; [reflexivity|].
      split; [eapply parse_sub_inv; eauto|].
      intros d Hd. pose proof (existsb_false_forall _ _ Hreq d Hd) as Hn.
      simpl in Hn. apply negb_false_iff, existsb_exists in Hn.
      destruct Hn as [x [Hx Hx']]. apply String.eqb_eq in Hx'. now subst.
Qed.

(** Whenever the command line parses to [add], the arguments hold a
    string [db], a string destination [punkt], an integer [time], and
    [nomer] is an integer or [None] (it is not required). *)
Theorem parse_add_arguments (cwd : string) (command_line : list string)
    (args : namespace)
    (Hparse : parse_args cwd command_line = Parsed args)
    (Hadd : lookup "command" args = Some (PStr "add")) :
  (exists s, lookup "db" args = Some (PStr s)) /\
  (exists p, lookup "punkt" args = Some (PStr p)) /\
  (exists t, lookup "time" args = Some (PInt t)) /\
  (lookup "nomer" args = Some PNone \/ exists n, lookup "nomer" args = Some (PInt n)).
Proof.
  destruct (parse_top_sub _ _ _ _ _ Hparse Hadd)
    as [opts [ns [seen [Hsub [-> [Hinv Hreq]]]]]].
  simpl in Hsub. injection Hsub; intros <-.
  destruct (parse_top_command _ _ _ _ _ Hparse Hadd) as [ns0 [Heq [_ [s Hdb]]]].
  injection Heq; intros Hns. rewrite <- Hns in Hdb.
  cbn [lookup String.eqb Ascii.eqb Bool.eqb].
  split; [eauto|].
  destruct (Hinv (mkopt ["-p"; "--punkt"] (AStore "punkt" false true))
              "punkt" false true ltac:(simpl; tauto) eq_refl) as [vp [Hp [Tp Np]]].
  destruct (Hinv (mkopt ["-t"; "--time"] (AStore "time" true true))
              "time" true true ltac:(simpl; tauto) eq_refl) as [vt [Hti [Tt Nt]]].
  destruct (Hinv (mkopt ["-n"; "--nomer"] (AStore "nomer" true false))
              "nomer" true false ltac:(simpl; tauto) eq_refl) as [vn [Hn [Tn _]]].
  specialize (Np (Hreq "punkt" ltac:(simpl; auto))).
  specialize (Nt (Hreq "time" ltac:(simpl; auto))).
  rewrite Hp, Hti, Hn.
  split; [destruct vp; simpl in Tp; try discriminate; [congruence|eauto]|].
  split; [destruct vt; simpl in Tt; try discriminate; [congruence|eauto]|].
  destruct vn; simpl in Tn; try discriminate; eauto.
Qed.

Lemma parse_add_arguments_witness :
  parse_args "/home" ["add"; "--db"; "t.db"; "-p"; "Moscow"; "-t"; "800"] =
    Parsed [("command", PStr "add"); ("db", PStr "t.db"); ("punkt", PStr "Moscow");
            ("nomer", PNone); ("time", PInt 800)] /\
  lookup "command" [("command", PStr "add"); ("db", PStr "t.db");
                    ("punkt", PStr "Moscow"); ("nomer", PNone);
                    ("time", PInt 800)] = Some (PStr "add") /\
  let args := [("command", PStr "add"); ("db", PStr "t.db"); ("punkt", PStr "Moscow");
               ("nomer", PNone); ("time", PInt 800)] in
  (exists s, lookup "db" args = Some (PStr s)) /\
  (exists p, lookup "punkt" args = Some (PStr p)) /\
  (exists t, lookup "time" args = Some (PInt t)) /\
  (lookup "nomer" args = Some PNone \/ exists n, lookup "nomer" args = Some (PInt n)).
Proof.
  assert (H : parse_args "/home" ["add"; "--db"; "t.db"; "-p"; "Moscow"; "-t"; "800"] =
    Parsed [("command", PStr "add"); ("db", PStr "t.db"); ("punkt", PStr "Moscow");
            ("nomer", PNone); ("time", PInt 800)]) by (vm_compute; reflexivity).
  split; [exact H|]. split; [reflexivity|].
  exact (parse_add_arguments _ _ _ H eq_refl).
Defined.

(** Whenever the command line parses to [select], the filter passed to
    [select_by_num] is a string (the option has no [type=int]), and [db]
    is a string. *)
Theorem parse_select_arguments (cwd : string) (command_line : list string)
    (args : namespace)
    (Hparse : parse_args cwd command_line = Parsed args)
    (Hsel : lookup "command" args = Some (PStr "select")) :
  (exists s, lookup "db" args = Some (PStr s)) /\
  (exists v, lookup "select" args = Some (PStr v)).
Proof.
  destruct (parse_top_sub _ _ _ _ _ Hparse Hsel)
    as [opts [ns [seen [Hsub [-> [Hinv Hreq]]]]]].
  simpl in Hsub. injection Hsub; intros <-.
  destruct (parse_top_command _ _ _ _ _ Hparse Hsel) as [ns0 [Heq [_ [s Hdb]]]].
  injection Heq; intros Hns. rewrite <- Hns in Hdb.
  cbn [lookup String.eqb Ascii.eqb Bool.eqb].
  split; [eauto|].
  destruct (Hinv (mkopt ["-s"; "--select"] (AStore "select" false true))
              "select" false true ltac:(simpl; tauto) eq_refl)
    as [vs [Hs [Ts Ns]]].
  specialize (Ns (Hreq "select" ltac:(simpl; auto))).
  rewrite Hs. destruct vs; simpl in Ts; try discriminate; [congruence|eauto].
Qed.

Lemma parse_select_arguments_witness :
  parse_args "/home" ["select"; "-s"; "42"] =
    Parsed [("command", PStr "select"); ("db", PStr "/home/trains.db");
            ("select", PStr "42")] /\
  (exists s, lookup "db" [("command", PStr "select"); ("db", PStr "/home/trains.db");
                          ("select", PStr "42")] = Some (PStr s)) /\
  (exists v, lookup "select" [("command", PStr "select");
                              ("db", PStr "/home/trains.db");
                              ("select", PStr "42")] = Some (PStr v)).
Proof.
  assert (H : parse_args "/home" ["select"; "-s"; "42"] =
    Parsed [("command", PStr "select"); ("db", PStr "/home/trains.db");
            ("select", PStr "42")]) by (vm_compute; reflexivity).
  split; [exact H|].
  exact (parse_select_arguments _ _ _ H eq_refl).
Defined.


(** ** [main] *)

Lemma select_by_num_raises_keep (d : db) (nomer : pyval) :
  exists m, run (select_by_num nomer) d = (Exc (OperationalError m), d).
Proof.
  unfold run, select_by_num, bind, execute, connect, current.
  cbn [c_tx c_disk].
  destruct (exec_stmt select_by_num_query [to_sql nomer] d)
    as [[[d' rows] lid]|e] eqn:E.
  - exfalso. revert E. unfold exec_stmt, select_by_num_query; simpl.
    destruct (lookup "trains" d) as [tb|]; [|intros H; discriminate H].
    destruct (lookup "groups" d) as [tg|]; [|intros H; discriminate H].
    simpl.
    repeat match goal with
           | |- context [resolve ?s ?c] => destruct (resolve s c)
           end; intros H; discriminate H.
  - revert E. unfold exec_stmt, select_by_num_query; simpl.
    destruct (lookup "trains" d) as [tb|];
      [|intros H; injection H; intros <-; cbn; eexists; reflexivity].
    destruct (lookup "groups" d) as [tg|];
      [|intros H; injection H; intros <-; cbn; eexists; reflexivity].
    simpl.
    repeat match goal with
           | |- context [resolve ?s ?c] =>
               let Hr := fresh "Hr" in destruct (resolve s c) eqn:Hr
           end; intros H; try discriminate H; injection H; intros <-;
    try match goal with
        | Hr : resolve _ _ = Some ?e |- context [?e] =>
            destruct (resolve_operational _ _ _ Hr) as [m ->]
        end; cbn; unfold no_such_column; eexists; reflexivity.
Qed.

(** Every command line that parses to [select] ends the process with an
    uncaught exception: nothing is printed, and the only change to the
    files is the schema [create_db] commits to the [--db] file. *)
Theorem select_command_raises (cwd : string) (command_line : list string)
    (f : fs) (args : namespace)
    (Hparse : parse_args cwd command_line = Parsed args)
    (Hsel : lookup "command" args = Some (PStr "select")) :
  exists p, main cwd command_line f =
            mkoutcome 1%Z [] (fs_set p (snd (run create_db (fs_get p f))) f).
Proof.
  destruct (parse_top_sub _ _ _ _ _ Hparse Hsel)
    as [opts [ns [seen [Hsub [Hargs [Hinv Hreq]]]]]].
  simpl in Hsub. injection Hsub; intros <-.
  destruct (Hinv (mkopt ["-s"; "--select"] (AStore "select" false true))
              "select" false true ltac:(simpl; tauto) eq_refl)
    as [v [Hs _]].
  destruct (parse_top_command _ _ _ _ _ Hparse Hsel) as [ns' [Heq [_ [p Hdb]]]].
  rewrite Hargs in Heq. injection Heq; intros <-. subst args.
  exists p. unfold main. rewrite Hparse.
  unfold dispatch, getattr, call. cbn [lookup String.eqb Ascii.eqb Bool.eqb].
  rewrite Hdb. cbn [or_raise path].
  rewrite create_db_ok. cbn [or_raise py_eq String.eqb Ascii.eqb Bool.eqb].
  rewrite Hs. cbn [or_raise].
  rewrite fs_get_set.
  destruct (select_by_num_raises_keep (snd (run create_db (fs_get p f))) v)
    as [m Hm].
  rewrite Hm. cbn [or_raise]. unfold uncaught. now rewrite fs_set_set.
Qed.

Lemma select_command_raises_witness :
  parse_args "/home" ["select"; "--db"; "t.db"; "--sel"; "42"] =
    Parsed [("command", PStr "select"); ("db", PStr "t.db");
            ("select", PStr "42")] /\
  lookup "command" [("command", PStr "select"); ("db", PStr "t.db");
                    ("select", PStr "42")] = Some (PStr "select") /\
  exists p, main "/home" ["select"; "--db"; "t.db"; "--sel"; "42"] [] =
            mkoutcome 1%Z [] (fs_set p (snd (run create_db (fs_get p []))) []).
Proof.
  assert (H : parse_args "/home" ["select"; "--db"; "t.db"; "--sel"; "42"] =
    Parsed [("command", PStr "select"); ("db", PStr "t.db");
            ("select", PStr "42")]) by (vm_compute; reflexivity).
  split; [exact H|]. split; [reflexivity|].
  exact (select_command_raises _ _ [] _ H eq_refl).
Defined.

(** ** The table renderer *)

Lemma cp_len_app a b : cp_len (a ++ b) = cp_len a + cp_len b.
Proof.
  induction a as [|c a IH]; simpl; [reflexivity|].
  destruct (N.eqb _ 128); rewrite IH; reflexivity.
Qed.

Lemma cp_len_spaces n : cp_len (spaces n) = n.
Proof. unfold spaces. induction n as [|n IH]; simpl; [|rewrite IH]; reflexivity. Qed.

Lemma cp_len_pad a w s : cp_len (pad a w s) = Nat.max w (cp_len s).
Proof.
  unfold pad. destruct a; rewrite ?cp_len_app, ?cp_len_spaces; [lia|lia|].
  pose proof (Nat.div_mod_eq (w - cp_len s) 2).
  pose proof (Nat.mod_upper_bound (w - cp_len s) 2).
  lia.
Qed.

Lemma cp_len_format a w v s :
  format a w v = Ok s -> cp_len s = Nat.max w (cp_len (cell_text v)).
Proof.
  destruct v; simpl; intros H; try discriminate H;
    injection H; intros <-; apply cp_len_pad.
Qed.

Lemma cp_len_row a b c d :
  cp_len ("| " ++ a ++ " | " ++ b ++ " | " ++ c ++ " |  " ++ d ++ " |") =
  14 + cp_len a + cp_len b + cp_len c + cp_len d.
Proof. rewrite !cp_len_app. simpl. lia. Qed.

(** Every row [display_trains] prints has the width the format string
    gives it: 14 code points of separators plus each cell padded to its
    column width, or wider when the value is longer than the column. *)
Theorem format_row_width (idx : Z) (train : dict) (s : string)
    (Hok : format_row idx train = Ok s) :
  cp_len s =
    14 + Nat.max 4 (cp_len (z_str idx))
       + Nat.max 30 (cp_len (cell_text (get train "punkt_nazn" (PStr ""))))
       + Nat.max 20 (cp_len (cell_text (get train "nomer" (PStr ""))))
       + Nat.max 20 (cp_len (cell_text (get train "time" (PStr "")))).
Proof.
  revert Hok. unfold format_row.
  destruct (format ARight 4 (PInt idx)) as [a|] eqn:Ha;
  destruct (format ALeft 30 (get train "punkt_nazn" (PStr ""))) as [b|] eqn:Hb;
  destruct (format ALeft 20 (get train "nomer" (PStr ""))) as [c|] eqn:Hc;
  destruct (format ALeft 20 (get train "time" (PStr ""))) as [d|] eqn:Hd;
  intros H; try discriminate H.
  assert (Hs : s = "| " ++ a ++ " | " ++ b ++ " | " ++ c ++ " |  " ++ d ++ " |")
    by congruence.
  subst s. rewrite cp_len_row.
  apply cp_len_format in Ha, Hb, Hc, Hd.
  change (cell_text (PInt idx)) with (z_str idx) in Ha. lia.
Qed.

Lemma format_row_width_witness :
  format_row 1 [("punkt_nazn", PStr "Moscow"); ("nomer", PInt 42); ("time", PInt 800)] =
    Ok ("| " ++ pad ARight 4 "1" ++ " | " ++ pad ALeft 30 "Moscow" ++ " | "
          ++ pad ALeft 20 "42" ++ " |  " ++ pad ALeft 20 "800" ++ " |") /\
  cp_len ("| " ++ pad ARight 4 "1" ++ " | " ++ pad ALeft 30 "Moscow" ++ " | "
          ++ pad ALeft 20 "42" ++ " |  " ++ pad ALeft 20 "800" ++ " |") =
    14 + Nat.max 4 (cp_len (z_str 1))
       + Nat.max 30 (cp_len (cell_text (PStr "Moscow")))
       + Nat.max 20 (cp_len (cell_text (PInt 42)))
       + Nat.max 20 (cp_len (cell_text (PInt 800))).
Proof.
  assert (H : format_row 1 [("punkt_nazn", PStr "Moscow"); ("nomer", PInt 42);
                            ("time", PInt 800)] =
    Ok ("| " ++ pad ARight 4 "1" ++ " | " ++ pad ALeft 30 "Moscow" ++ " | "
          ++ pad ALeft 20 "42" ++ " |  " ++ pad ALeft 20 "800" ++ " |"))
    by (vm_compute; reflexivity).
  split; [exact H|].
  exact (format_row_width _ _ _ H).
Defined.

(** The data rows are never aligned with the table's frame: the border
    and header lines are 87 code points wide, and every row is wider
    (the row format has two spaces before the last cell where the header
    has one). *)
Theorem rows_wider_than_frame (idx : Z) (train : dict) (s : string)
    (Hok : format_row idx train = Ok s) :
  cp_len line = 87 /\ cp_len header = 87 /\ cp_len line < cp_len s.
Proof.
  assert (Hline : cp_len line = 87) by reflexivity.
  split; [exact Hline|]. split; [reflexivity|].
  rewrite Hline. revert Hok. unfold format_row.
  destruct (format ARight 4 (PInt idx)) as [a|] eqn:Ha;
  destruct (format ALeft 30 (get train "punkt_nazn" (PStr ""))) as [b|] eqn:Hb;
  destruct (format ALeft 20 (get train "nomer" (PStr ""))) as [c|] eqn:Hc;
  destruct (format ALeft 20 (get train "time" (PStr ""))) as [d|] eqn:Hd;
  intros H; try discriminate H.
  assert (Hs : s = "| " ++ a ++ " | " ++ b ++ " | " ++ c ++ " |  " ++ d ++ " |")
    by congruence.
  subst s. rewrite cp_len_row.
  apply cp_len_format in Ha, Hb, Hc, Hd. lia.
Qed.

Lemma rows_wider_than_frame_witness :
  format_row 7 [("punkt_nazn", PStr "Tver")] =
    Ok ("| " ++ pad ARight 4 "7" ++ " | " ++ pad ALeft 30 "Tver" ++ " | "
          ++ pad ALeft 20 "" ++ " |  " ++ pad ALeft 20 "" ++ " |") /\
  cp_len line = 87 /\ cp_len header = 87 /\
  cp_len line < cp_len ("| " ++ pad ARight 4 "7" ++ " | " ++ pad ALeft 30 "Tver"
          ++ " | " ++ pad ALeft 20 "" ++ " |  " ++ pad ALeft 20 "" ++ " |").
Proof.
  assert (H : format_row 7 [("punkt_nazn", PStr "Tver")] =
    Ok ("| " ++ pad ARight 4 "7" ++ " | " ++ pad ALeft 30 "Tver" ++ " | "
          ++ pad ALeft 20 "" ++ " |  " ++ pad ALeft 20 "" ++ " |"))
    by (vm_compute; reflexivity).
  split; [exact H|].
  exact (rows_wider_than_frame _ _ _ H).
Defined.


Lemma format_row_none idx t :
  ~ cells_ok t -> exists m, format_row idx t = Exc (TypeError m).
Proof.
  unfold cells_ok, format_row. cbn [format].
  destruct (get t "punkt_nazn" (PStr "")), (get t "nomer" (PStr "")),
    (get t "time" (PStr "")); cbn [format]; intros H;
    try (exfalso; apply H; repeat split; discriminate); eexists; reflexivity.
Qed.

Lemma cells_ok_dec t : cells_ok t \/ ~ cells_ok t.
Proof.
  unfold cells_ok.
  destruct (get t "punkt_nazn" (PStr "")), (get t "nomer" (PStr "")),
    (get t "time" (PStr ""));
    first [left; repeat split; discriminate | right; intros [? [? ?]]; congruence].
Qed.

Lemma print_rows_cases idx ts :
  (Forall cells_ok ts /\ exists rows, print_rows idx ts = (rows, None)) \/
  (exists pre t post rows m, ts = (pre ++ t :: post)%list /\ ~ cells_ok t /\
     Forall cells_ok pre /\ print_rows idx ts = (rows, Some (TypeError m)) /\
     List.length rows = List.length pre).
Proof.
  revert idx. induction ts as [|t ts IH]; intros idx.
  - left. split; [constructor|]. exists []. reflexivity.
  - destruct (cells_ok_dec t) as [Ht|Ht].
    + destruct (format_row_ok idx t Ht) as [s Hs].
      destruct (IH (idx + 1)%Z) as [[Hall [rows Hp]]|[pre [t' [post [rows [m
                 [-> [Hb [Hpre [Hp Hl]]]]]]]]]].
      * left. split; [constructor; assumption|].
        exists (s :: rows). simpl. now rewrite Hs, Hp.
      * right. exists (t :: pre), t', post, (s :: rows), m.
        split; [reflexivity|]. split; [exact Hb|].
        split; [constructor; assumption|].
        split; [simpl; now rewrite Hs, Hp|]. simpl. now rewrite Hl.
    + destruct (format_row_none idx t Ht) as [m Hm].
      right. exists [], t, ts, [], m. split; [reflexivity|]. split; [exact Ht|].
      split; [constructor|]. split; [simpl; now rewrite Hm|reflexivity].
Qed.

(** A record with [None] under ["punkt_nazn"], ["nomer"] or ["time"]
    makes [display_trains] raise [TypeError], at the first such record:
    it has printed the border, the header, the border and one row for
    each record before it, and never prints the closing border. *)
Theorem display_trains_none_value (trains : list dict) (t : dict)
    (Hin : In t trains)
    (Hnone : get t "punkt_nazn" (PStr "") = PNone \/ get t "nomer" (PStr "") = PNone \/
             get t "time" (PStr "") = PNone) :
  exists pre t0 post rows m,
    trains = (pre ++ t0 :: post)%list /\
    (get t0 "punkt_nazn" (PStr "") = PNone \/ get t0 "nomer" (PStr "") = PNone \/
     get t0 "time" (PStr "") = PNone) /\
    Forall cells_ok pre /\
    display_trains trains = (([line; header; line] ++ rows)%list, Some (TypeError m)) /\
    List.length rows = List.length pre.
Proof.
  assert (Hbad : ~ cells_ok t) by (unfold cells_ok; intros [? [? ?]]; tauto).
  destruct (print_rows_cases 1 trains)
    as [[Hall _]|[pre [t0 [post [rows [m [Heq [Hb [Hpre [Hp Hl]]]]]]]]]].
  - exfalso. apply Hbad. exact (proj1 (Forall_forall _ _) Hall t Hin).
  - exists pre, t0, post, rows, m. split; [exact Heq|].
    split.
    + unfold cells_ok in Hb.
      destruct (get t0 "punkt_nazn" (PStr "")); [auto|..];
      (destruct (get t0 "nomer" (PStr "")); [auto|..]);
      (destruct (get t0 "time" (PStr "")); [auto|..]);
      exfalso; apply Hb; repeat split; discriminate.
    + split; [exact Hpre|]. split; [|exact Hl].
      unfold display_trains. destruct trains as [|x xs]; [destruct Hin|].
      now rewrite Hp.
Qed.

Lemma display_trains_none_value_witness :
  In [("punkt_nazn", PStr "Moscow"); ("nomer", PNone); ("time", PInt 800)]
     [ [("punkt_nazn", PStr "Tver"); ("nomer", PInt 5); ("time", PInt 900)];
       [("punkt_nazn", PStr "Moscow"); ("nomer", PNone); ("time", PInt 800)] ] /\
  exists pre t0 post rows m,
    [ [("punkt_nazn", PStr "Tver"); ("nomer", PInt 5); ("time", PInt 900)];
      [("punkt_nazn", PStr "Moscow"); ("nomer", PNone); ("time", PInt 800)] ] =
      (pre ++ t0 :: post)%list /\
    (get t0 "punkt_nazn" (PStr "") = PNone \/ get t0 "nomer" (PStr "") = PNone \/
     get t0 "time" (PStr "") = PNone) /\
    Forall cells_ok pre /\
    display_trains
      [ [("punkt_nazn", PStr "Tver"); ("nomer", PInt 5); ("time", PInt 900)];
        [("punkt_nazn", PStr "Moscow"); ("nomer", PNone); ("time", PInt 800)] ] =
      (([line; header; line] ++ rows)%list, Some (TypeError m)) /\
    List.length rows = List.length pre.
Proof.
  split; [simpl; auto|].
  apply (display_trains_none_value _
           [("punkt_nazn", PStr "Moscow"); ("nomer", PNone); ("time", PInt 800)]);
    [simpl; auto | right; left; reflexivity].
Defined.


End Extra.
